(** * PhishLens-AI: the explainability and intent engine of [app.py]

    A shallow embedding of [explain_message], [detect_scammer_intent] and the
    reconciliation tail of the [/predict] route, with the properties the
    specification states about them.

    Python strings are sequences of Unicode code points; they are modelled
    as lists of code points ([N]).  The parts of the Unicode character
    database the code reaches through [str.lower], [str.isupper], [\w] and
    [\s] are taken as a parameter ([Py.Unicode]); every theorem holds for
    any such database.  [Py.ascii_db] is the database restricted to ASCII,
    used to run the definitions on ASCII messages. *)

From Stdlib Require Import List String Ascii Bool NArith ZArith QArith Lia.
Import ListNotations.

Local Open Scope N_scope.
Local Open Scope list_scope.

(* ================================================================== *)
(** ** Python values and builtins used by [app.py] *)

Module Py.

(** A [str]: its code points, in order. *)
Definition str := list N.

(** An ASCII literal of the source, as a [str]. *)
Definition lit (s : string) : str :=
  map N_of_ascii (list_ascii_of_string s).

(** [a == b] on strings. *)
Fixpoint str_eqb (a b : str) : bool :=
  match a, b with
  | [], [] => true
  | x :: a', y :: b' => (x =? y) && str_eqb a' b'
  | _, _ => false
  end.

(** [x in l] for a list [l] of strings. *)
Definition in_list (x : str) (l : list str) : bool :=
  existsb (str_eqb x) l.

(** [s.startswith(p)]. *)
Fixpoint startswith (p s : str) : bool :=
  match p, s with
  | [], _ => true
  | x :: p', y :: s' => (x =? y) && startswith p' s'
  | _ :: _, [] => false
  end.

(** [p in s] for strings: [p] occurs in [s] as a contiguous substring. *)
Fixpoint in_str (p s : str) : bool :=
  startswith p s ||
  match s with
  | [] => false
  | _ :: s' => in_str p s'
  end.

(** [len(s)] as a Python integer. *)
Definition len {A} (s : list A) : Z := Z.of_nat (List.length s).

(** [sum(1 for x in s if f(x))]. *)
Definition sum_if {A} (f : A -> bool) (s : list A) : Z :=
  fold_left (fun acc x => if f x then (acc + 1)%Z else acc) s 0%Z.

(** [list(dict.fromkeys(l))]: the keys of an insertion-ordered dict, so
    each string is kept at its first occurrence. *)
Fixpoint fromkeys_from (seen : list str) (l : list str) : list str :=
  match l with
  | [] => []
  | x :: l' =>
      if in_list x seen then fromkeys_from seen l'
      else x :: fromkeys_from (x :: seen) l'
  end.

Definition dict_fromkeys (l : list str) : list str := fromkeys_from [] l.

(** Exceptions the modelled code could raise. *)
Inductive exn := ZeroDivisionError.

Inductive result (A : Type) :=
| OK (a : A)
| Raise (e : exn).
Arguments OK {A} a.
Arguments Raise {A} e.

Definition bind {A B} (r : result A) (k : A -> result B) : result B :=
  match r with
  | OK a => k a
  | Raise e => Raise e
  end.

(** [a / b] on integers.  Python rounds the quotient to a double; the
    quotient is kept exact here.  For [0 <= a <= b < 2^53] the comparison
    of the double with [0.5] agrees with the comparison of the exact
    quotient with 1/2: division is correctly rounded, and a quotient above
    1/2 is above it by at least [1/(2b)], more than half the spacing of
    doubles at [0.5]. *)
Definition truediv (a b : Z) : result Q :=
  if (b =? 0)%Z then Raise ZeroDivisionError
  else OK (inject_Z a / inject_Z b)%Q.

(** [q > 0.5]. *)
Definition gt_half (q : Q) : bool := negb (Qle_bool q (1 # 2)).

Definition ascii_upper (c : N) : bool := (65 <=? c) && (c <=? 90).
Definition ascii_lower (c : N) : bool := (97 <=? c) && (c <=? 122).
Definition ascii_digit (c : N) : bool := (48 <=? c) && (c <=? 57).

(** The part of the Unicode character database the code depends on.
    [lower] is [str.lower] (a function of the whole string: it may change
    the length, and the final-sigma rule looks at the context); [isalnum],
    [isspace] and [isupper] are the predicates on one character behind
    [\w], [\s] / [str.strip] and [str.isupper].  On ASCII [isupper] is
    [A-Z]. *)
Record Unicode := {
  lower : str -> str;
  isalnum : N -> bool;
  isspace : N -> bool;
  isupper : N -> bool;
  isupper_ascii : forall c, c < 128 -> isupper c = ascii_upper c
}.

Definition ascii_to_lower (c : N) : N :=
  if ascii_upper c then c + 32 else c.

(** [\t \n \v \f \r], the separators U+001C..U+001F and the space. *)
Definition ascii_space (c : N) : bool :=
  ((9 <=? c) && (c <=? 13)) || ((28 <=? c) && (c <=? 32)).

(** The database on ASCII: exact for strings of code points below 128. *)
Definition ascii_db : Unicode := {|
  lower := map ascii_to_lower;
  isalnum := fun c => ascii_upper c || ascii_lower c || ascii_digit c;
  isspace := ascii_space;
  isupper := ascii_upper;
  isupper_ascii := fun _ _ => eq_refl
|}.

End Py.

Notation "x <- r ;; k" := (Py.bind r (fun x => k))
  (at level 61, r at next level, right associativity).

(* ================================================================== *)
(** ** The regular expressions of [app.py]

    Only the constructs the three patterns use.  Repetition is always of a
    one-character class.  The code uses the patterns for their truth value
    only ([search], or [findall] tested for emptiness), except for
    [\b\w+\b], whose matches [findall] returns. *)

Module Re.
Import Py.

(** One-character classes. *)
Inductive cls :=
| Word                (* \w *)
| NotSpace            (* [^\s] *)
| OneOf (l : list N). (* [...] *)

Inductive re :=
| Eps                      (* the empty pattern *)
| Chr (c : N)              (* a literal character *)
| Cls (p : cls)
| Seq (r1 r2 : re)
| Alt (r1 r2 : re)
| Opt (r : re)             (* r? *)
| Rep (n : nat) (p : cls)  (* p{n,} ; p+ is Rep 1, p* is Rep 0 *)
| WordB.                   (* \b *)

(** A literal string. *)
Fixpoint Str (s : str) : re :=
  match s with
  | [] => Eps
  | [c] => Chr c
  | c :: s' => Seq (Chr c) (Str s')
  end.

Section Matching.
Variable U : Unicode.
(** [re.IGNORECASE] *)
Variable ignorecase : bool.

(** [\w]: alphanumeric or underscore. *)
Definition is_word (c : N) : bool := isalnum U c || (c =? 95).

Definition in_cls (p : cls) (c : N) : bool :=
  match p with
  | Word => is_word c
  | NotSpace => negb (isspace U c)
  | OneOf l => existsb (N.eqb c) l
  end.

(** A literal against a character.  Under IGNORECASE an ASCII letter of
    the pattern (all of them lowercase in [app.py]) matches the
    characters whose lowercase it is, which besides its capital are
    U+0130 for [i] and U+212A for [k], and the characters the [re]
    module adds as case equivalents: U+0131 for [i], U+017F for [s]. *)
Definition chr_matches (c x : N) : bool :=
  (x =? c) ||
  (ignorecase && ascii_lower c &&
     ((x =? c - 32)
      || ((c =? 105) && ((x =? 0x130) || (x =? 0x131)))
      || ((c =? 115) && (x =? 0x17F))
      || ((c =? 107) && (x =? 0x212A)))).

(** [rep p n k prev s]: [n] or more characters of class [p] from the
    front of [s], then [k]. *)
Fixpoint rep (p : cls) (k : option N -> str -> bool)
         (n : nat) (prev : option N) (s : str) : bool :=
  match n with
  | O => k prev s
  | S _ => false
  end ||
  match s with
  | [] => false
  | c :: s' => in_cls p c && rep p k (pred n) (Some c) s'
  end.

Definition opt_word (o : option N) : bool :=
  match o with
  | Some c => is_word c
  | None => false
  end.

(** [matches r k prev s]: some match of [r] at the front of [s] after
    which [k] accepts the rest; [prev] is the character before the
    current position, if any.  A backtracking matcher finds a match
    exactly when one exists. *)
Fixpoint matches (r : re) (k : option N -> str -> bool)
         (prev : option N) (s : str) : bool :=
  match r with
  | Eps => k prev s
  | Chr c =>
      match s with
      | x :: s' => chr_matches c x && k (Some x) s'
      | [] => false
      end
  | Cls p =>
      match s with
      | x :: s' => in_cls p x && k (Some x) s'
      | [] => false
      end
  | Seq r1 r2 => matches r1 (matches r2 k) prev s
  | Alt r1 r2 => matches r1 k prev s || matches r2 k prev s
  | Opt r1 => matches r1 k prev s || k prev s
  | Rep n p => rep p k n prev s
  | WordB =>
      xorb (opt_word prev) (opt_word (hd_error s)) && k prev s
  end.

Fixpoint search_from (r : re) (prev : option N) (s : str) : bool :=
  matches r (fun _ _ => true) prev s ||
  match s with
  | [] => false
  | c :: s' => search_from r (Some c) s'
  end.

(** [bool(pattern.search(s))]; also [bool(pattern.findall(s))]: the
    list of matches is non-empty exactly when there is a match. *)
Definition search (r : re) (s : str) : bool := search_from r None s.

(** [re.findall(r"\b\w+\b", s)]: the maximal runs of word characters,
    left to right.  [cur] is the run being read, reversed. *)
Fixpoint word_runs (cur : str) (s : str) : list str :=
  match s with
  | [] =>
      match cur with
      | [] => []
      | _ :: _ => [rev cur]
      end
  | c :: s' =>
      if is_word c then word_runs (c :: cur) s'
      else
        match cur with
        | [] => word_runs [] s'
        | _ :: _ => rev cur :: word_runs [] s'
        end
  end.

Definition findall_words (s : str) : list str := word_runs [] s.

End Matching.
End Re.

Infix "@@" := Re.Seq (at level 41, right associativity).
Infix "<|>" := Re.Alt (at level 51, right associativity).

(* ================================================================== *)
(** ** [app.py]: keyword lists and patterns *)

Import Py.
Local Open Scope string_scope.
Local Open Scope list_scope.
Local Open Scope N_scope.

(** Truth value of a list: non-empty. *)
Definition truthy {A} (l : list A) : bool :=
  match l with
  | [] => false
  | _ :: _ => true
  end.

Definition SPAM_KEYWORDS : list str := map lit [
  "free"; "win"; "winner"; "click"; "offer"; "urgent"; "lottery";
  "now"; "prize"; "cash"; "reward"; "claim"; "selected"; "congratulations";
  "exclusive"; "limited"; "guaranteed"; "act"; "earn"; "money";
  "bonus"; "upgrade"; "membership"; "discount"; "cheap"; "buy";
  "call"; "text"; "subscribe"; "unsubscribe"; "credit"; "loan"
].

Definition URGENCY_WORDS : list str := map lit [
  "urgent"; "immediately"; "now"; "today"; "expires"; "limited"; "hurry";
  "act"; "fast"; "quick"; "instant"; "deadline"; "last chance"; "expiring"
].

(** The three alternatives of the URL pattern, compiled with
    [re.IGNORECASE]:
    - [https?://[^\s]+]
    - [www\.[^\s]+]
    - [\b\w+\.(com|net|org|xyz|info|biz|ru|tk|click)] followed by any number
      of [[^\s]]. *)
Definition URL_PATTERN : Re.re :=
  (Re.Str (lit "http") @@ Re.Opt (Re.Chr 115) @@ Re.Str (lit "://")
     @@ Re.Rep 1 Re.NotSpace)
  <|> (Re.Str (lit "www") @@ Re.Chr 46 @@ Re.Rep 1 Re.NotSpace)
  <|> (Re.WordB @@ Re.Rep 1 Re.Word @@ Re.Chr 46
       @@ (Re.Str (lit "com") <|> Re.Str (lit "net") <|> Re.Str (lit "org")
           <|> Re.Str (lit "xyz") <|> Re.Str (lit "info")
           <|> Re.Str (lit "biz") <|> Re.Str (lit "ru")
           <|> Re.Str (lit "tk") <|> Re.Str (lit "click"))
       @@ Re.Rep 0 Re.NotSpace).

(** [[!£$€@#%&*]{2,}], compiled without flags.  The pound sign is U+00A3
    and the euro sign U+20AC. *)
Definition EXCESSIVE_SYMBOL_PATTERN : Re.re :=
  Re.Rep 2 (Re.OneOf [33; 0xA3; 36; 0x20AC; 64; 35; 37; 38; 42]).

Definition MONEY_THEFT_KEYWORDS : list str := map lit [
  "win"; "winner"; "prize"; "cash"; "money"; "reward"; "claim"; "payment";
  "transfer"; "deposit"; "account"; "loan"; "credit"; "debt"; "fee";
  "pay"; "bitcoin"; "cryptocurrency"; "investment"; "profit"; "earn"
].

Definition DATA_THEFT_KEYWORDS : list str := map lit [
  "verify"; "confirm"; "update"; "security"; "password"; "account";
  "login"; "credentials"; "personal"; "information"; "details"; "ssn";
  "social security"; "card number"; "cvv"; "pin"; "identity"; "verification"
].

Definition PANIC_KEYWORDS : list str := map lit [
  "urgent"; "immediately"; "suspend"; "suspended"; "blocked"; "locked";
  "compromised"; "unauthorized"; "fraud"; "fraudulent"; "alert"; "warning";
  "expires"; "expired"; "deadline"; "last chance"; "act now"; "emergency"
].

Definition MALWARE_KEYWORDS : list str := map lit [
  "click"; "download"; "install"; "update"; "software"; "antivirus";
  "security update"; "patch"; "link"; "attachment"; "file"
].

(** *** The reason strings

    Each starts with an emoji, given by its code points. *)

(** U+26A0 U+FE0F, then [ Contains suspicious keyword: <b>{keyword}</b>]. *)
Definition keyword_reason (keyword : str) : str :=
  [0x26A0; 0xFE0F] ++ lit " Contains suspicious keyword: <b>"
    ++ keyword ++ lit "</b>".

(** U+1F6A8, then [ Contains urgency word: <b>{word}</b>]. *)
Definition urgency_reason (word : str) : str :=
  [0x1F6A8] ++ lit " Contains urgency word: <b>" ++ word ++ lit "</b>".

(** U+1F517; the dash is U+2014. *)
Definition url_reason : str :=
  [0x1F517] ++ lit " Contains a URL " ++ [0x2014]
    ++ lit " possible phishing link detected".

(** U+1F4B2; the pound signs are U+00A3 and the dash U+2014. *)
Definition symbols_reason : str :=
  [0x1F4B2] ++ lit " Contains excessive symbols ($$, !!, " ++ [0xA3; 0xA3]
    ++ lit ") " ++ [0x2014] ++ lit " common in spam".

(** U+1F520; the dash is U+2014. *)
Definition caps_reason : str :=
  [0x1F520] ++ lit " Message uses excessive CAPS " ++ [0x2014]
    ++ lit " typical spam behavior".

(** U+2139 U+FE0F. *)
Definition ham_note : str :=
  [0x2139; 0xFE0F]
    ++ lit " Model predicts HAM, but some suspicious patterns were found:".

(** U+1F916. *)
Definition ml_note : str :=
  [0x1F916]
    ++ lit " ML model detected spam patterns based on learned features.".

(* ================================================================== *)
(** ** [app.py]: the functions *)

(** *** The intent descriptors and the response *)

Record IntentDescriptor := {
  icon : str;
  goal : str;
  description : str
}.

Definition steal_money : IntentDescriptor := {|
  icon := [0x1F4B0];
  goal := lit "Steal Money";
  description :=
    lit "Scammer wants you to send money or provide payment information"
|}.

Definition steal_data : IntentDescriptor := {|
  icon := [0x1F510];
  goal := lit "Steal Personal Data";
  description :=
    lit "Scammer is trying to harvest your login credentials or personal information"
|}.

Definition create_panic : IntentDescriptor := {|
  icon := [0x1F631];
  goal := lit "Create Panic";
  description :=
    lit "Scammer uses urgency and fear to make you act without thinking"
|}.

Definition install_malware : IntentDescriptor := {|
  icon := [0x1F9A0];
  goal := lit "Install Malware";
  description :=
    lit "Scammer wants you to click a link or download malicious software"
|}.

Definition deceptive_intent : IntentDescriptor := {|
  icon := [0x1F3AF];
  goal := lit "Deceptive Intent";
  description := lit "Scammer is attempting to deceive or manipulate you"
|}.

(** The JSON object [predict] returns.  [confidence] is a float the route
    computes from the classifier and passes through; its type is left
    open. *)
Record Response (C : Type) := {
  prediction : str;
  confidence : C;
  suspicious_words : list str;
  explanation : list str;
  scammer_intent : list IntentDescriptor
}.
Arguments prediction {C} _.
Arguments confidence {C} _.
Arguments suspicious_words {C} _.
Arguments explanation {C} _.
Arguments scammer_intent {C} _.

Section App.
Variable U : Unicode.

(** The characters [re.sub(r"[^a-zA-Z ]", "", message)] keeps. *)
Definition letter_or_space (c : N) : bool :=
  ascii_lower c || ascii_upper c || (c =? 32).

(** Body of the loop of check 1, on the pair
    [(suspicious_words, explanations)]. *)
Definition check_keyword (words_in_msg : list str)
    (st : list str * list str) (keyword : str) : list str * list str :=
  let (suspicious_words, explanations) := st in
  if in_list keyword words_in_msg then
    if negb (in_list keyword suspicious_words) then
      (suspicious_words ++ [keyword],
       explanations ++ [keyword_reason keyword])
    else st
  else st.

(** Body of the loop of check 2. *)
Definition check_urgency (msg_lower : str)
    (st : list str * list str) (word : str) : list str * list str :=
  let (suspicious_words, explanations) := st in
  if in_str word msg_lower && negb (in_list word suspicious_words) then
    (suspicious_words ++ [word], explanations ++ [urgency_reason word])
  else st.

(** Check 3: [urls_found], the list [findall] returns, is only tested for
    being non-empty; then the reason and the two markers are appended. *)
Definition check_urls (message : str) (st : list str * list str)
    : list str * list str :=
  let (suspicious_words, explanations) := st in
  let urls_found := Re.search U true URL_PATTERN message in
  if urls_found then
    ((suspicious_words ++ [lit "http"]) ++ [lit "www"],
     explanations ++ [url_reason])
  else st.

(** Check 4: the reason is appended when the symbol pattern is found. *)
Definition check_symbols (message : str) (st : list str * list str)
    : list str * list str :=
  let (suspicious_words, explanations) := st in
  if Re.search U false EXCESSIVE_SYMBOL_PATTERN message then
    (suspicious_words, explanations ++ [symbols_reason])
  else st.

(** Check 5: the condition
    [words_only and sum(1 for c in words_only if c.isupper())
                    / max(len(words_only), 1) > 0.5]. *)
Definition caps_check (words_only : str) : result bool :=
  if truthy words_only then
    q <- truediv (sum_if (isupper U) words_only)
                 (Z.max (len words_only) 1) ;;
    OK (gt_half q)
  else OK false.

(** Check 5: [re.sub] deletes what is neither an ASCII letter nor a
    space, and the reason is appended when the condition holds. *)
Definition check_caps (message : str) (st : list str * list str)
    : result (list str * list str) :=
  let (suspicious_words, explanations) := st in
  let words_only := filter letter_or_space message in
  caps <- caps_check words_only ;;
  if caps then OK (suspicious_words, explanations ++ [caps_reason])
  else OK st.

(** [explain_message]: the five checks in order on the pair
    [(suspicious_words, explanations)], then the removal of duplicates. *)
Definition explain_message (message : str) : result (list str * list str) :=
  let msg_lower := lower U message in
  let words_in_msg := Re.findall_words U msg_lower in
  (* suspicious_words = [], explanations = [] *)
  let st := ([], []) in
  let st := fold_left (check_keyword words_in_msg) SPAM_KEYWORDS st in
  let st := fold_left (check_urgency msg_lower) URGENCY_WORDS st in
  let st := check_urls message st in
  let st := check_symbols message st in
  st <- check_caps message st ;;
  (* Remove duplicates while preserving order *)
  let (suspicious_words, explanations) := (st : list str * list str) in
  let suspicious_words := dict_fromkeys suspicious_words in
  OK (suspicious_words, explanations).

(** [sum(1 for word in keywords if word in msg_lower)]. *)
Definition matches_of (keywords : list str) (msg_lower : str) : Z :=
  sum_if (fun word => in_str word msg_lower) keywords.

(** [detect_scammer_intent]: nothing in it can raise, so it returns the
    list itself. *)
Definition detect_scammer_intent (message prediction : str)
    : list IntentDescriptor :=
  if negb (str_eqb prediction (lit "spam")) then []
  else
    let msg_lower := lower U message in
    let intents := [] in
    let money_matches := matches_of MONEY_THEFT_KEYWORDS msg_lower in
    let intents :=
      if (money_matches >=? 2)%Z then intents ++ [steal_money]
      else intents in
    let data_matches := matches_of DATA_THEFT_KEYWORDS msg_lower in
    let intents :=
      if (data_matches >=? 2)%Z then intents ++ [steal_data]
      else intents in
    let panic_matches := matches_of PANIC_KEYWORDS msg_lower in
    let intents :=
      if (panic_matches >=? 2)%Z then intents ++ [create_panic]
      else intents in
    let malware_matches := matches_of MALWARE_KEYWORDS msg_lower in
    let urls_present := Re.search U true URL_PATTERN message in
    let intents :=
      if (malware_matches >=? 2)%Z && urls_present
      then intents ++ [install_malware]
      else intents in
    let intents :=
      if negb (truthy intents) then intents ++ [deceptive_intent]
      else intents in
    intents.

(** [predict], from the call of [explain_message] to the response: what
    the route does with the message once the classifier has given
    [prediction] and [confidence].  The specification calls this step
    [buildExplanation]. *)
Definition buildExplanation {C : Type} (message prediction : str)
    (confidence : C) : result (Response C) :=
  r <- explain_message message ;;
  let (suspicious_words, explanations) := (r : list str * list str) in
  let scammer_intent := detect_scammer_intent message prediction in
  let explanations :=
    if str_eqb prediction (lit "ham") && truthy suspicious_words
    then ham_note :: explanations
    else explanations in
  let explanations :=
    if str_eqb prediction (lit "spam") && negb (truthy explanations)
    then explanations ++ [ml_note]
    else explanations in
  OK {| prediction := prediction;
        confidence := confidence;
        suspicious_words := suspicious_words;
        explanation := explanations;
        scammer_intent := scammer_intent |}.

End App.

(* ================================================================== *)
(** ** [app.py]: the [/predict] route

    The route from the parsed request body to what the view returns.  The
    pickled vectorizer and model are scikit-learn objects from outside the
    repository: what they answer is a parameter, and only what the route
    does with the answers is modelled. *)

(** What [request.get_json()] returns: a parsed JSON document.  A dict is
    given by its items, one per key. *)
#[local] Unset Elimination Schemes.
Inductive json :=
| JNull
| JBool (b : bool)
| JNum (q : Q)
| JStr (s : str)
| JList (l : list json)
| JDict (items : list (str * json)).
#[local] Set Elimination Schemes.

(** Truth value: [None], [False], zero, and the empty string, list and
    dict are false. *)
Definition json_truthy (data : json) : bool :=
  match data with
  | JNull => false
  | JBool b => b
  | JNum q => negb (Qeq_bool q 0)
  | JStr s => truthy s
  | JList l => truthy l
  | JDict items => truthy items
  end.

(** The value of [key] among the items of a dict. *)
Fixpoint dict_get (key : str) (items : list (str * json)) : option json :=
  match items with
  | [] => None
  | (k, v) :: items' => if str_eqb k key then Some v else dict_get key items'
  end.

(** [v == "message"] for a JSON value [v]. *)
Definition is_message_key (v : json) : bool :=
  match v with
  | JStr s => str_eqb s (lit "message")
  | _ => false
  end.

(** What can be raised inside the view. *)
Inductive route_exn :=
| TypeError
| KeyError
| AttributeError
| InAnalyzer (e : exn).

Inductive outcome (A : Type) :=
| Done (a : A)
| Raised (e : route_exn).
Arguments Done {A} a.
Arguments Raised {A} e.

Definition and_then {A B} (r : outcome A) (k : A -> outcome B) : outcome B :=
  match r with
  | Done a => k a
  | Raised e => Raised e
  end.

Notation "x <~ r ;; k" := (and_then r (fun x => k))
  (at level 61, r at next level, right associativity).

(** ["message" in data]: a key of a dict, an element of a list, a substring
    of a string; the other values are not iterable. *)
Definition contains_message (data : json) : outcome bool :=
  match data with
  | JDict items =>
      Done (match dict_get (lit "message") items with
            | Some _ => true
            | None => false
            end)
  | JList l => Done (existsb is_message_key l)
  | JStr s => Done (in_str (lit "message") s)
  | JNull | JBool _ | JNum _ => Raised TypeError
  end.

(** [data["message"]]: only a dict is indexed by a string. *)
Definition getitem_message (data : json) : outcome json :=
  match data with
  | JDict items =>
      match dict_get (lit "message") items with
      | Some v => Done v
      | None => Raised KeyError
      end
  | _ => Raised TypeError
  end.

(** What the view returns: [(jsonify({"error": error}), 400)], or
    [jsonify(response)] with the default status 200. *)
Inductive reply (C : Type) :=
| error_400 (error : str)
| ok_200 (response : Response C).
Arguments error_400 {C} error.
Arguments ok_200 {C} response.

Section Route.
Variable U : Unicode.

(** [s.lstrip()], [s.rstrip()] and [s.strip()]: the whitespace at the ends
    is dropped. *)
Fixpoint lstrip (s : str) : str :=
  match s with
  | [] => []
  | c :: s' => if isspace U c then lstrip s' else s
  end.

Definition rstrip (s : str) : str := rev (lstrip (rev s)).

Definition strip (s : str) : str := rstrip (lstrip s).

(** [v.strip()]: only a string has the method. *)
Definition strip_method (v : json) : outcome str :=
  match v with
  | JStr s => Done (strip s)
  | _ => Raised AttributeError
  end.

(** The classifier: the vector of a message, the label and the
    probabilities the model gives for a vector, the model's classes, and
    [round(p * 100, 2)] on a probability. *)
Variables Vec P C : Type.
Variable vectorizer_transform : str -> Vec.
Variable model_predict : Vec -> str.
Variable model_predict_proba : Vec -> list P.
Variable model_classes : list str.
Variable percent : P -> C.

(** [dict(zip(classes, probabilities))[prediction]]: [zip] stops at the
    shorter list, a later pair replaces an earlier one of the same class,
    and a class that is not a key raises [KeyError]. *)
Fixpoint prob_dict_get (prediction : str) (classes : list str)
    (probabilities : list P) : option P :=
  match classes, probabilities with
  | c :: classes', p :: probabilities' =>
      match prob_dict_get prediction classes' probabilities' with
      | Some q => Some q
      | None => if str_eqb c prediction then Some p else None
      end
  | _, _ => None
  end.

Definition predict (data : json) : outcome (reply C) :=
  if negb (json_truthy data) then
    Done (error_400 (lit "No message provided"))
  else
    has_message <~ contains_message data ;;
    if negb has_message then
      Done (error_400 (lit "No message provided"))
    else
      v <~ getitem_message data ;;
      message <~ strip_method v ;;
      if negb (truthy message) then
        Done (error_400 (lit "Message is empty"))
      else
        (* ML prediction *)
        let message_vec := vectorizer_transform message in
        let prediction := model_predict message_vec in
        let probabilities := model_predict_proba message_vec in
        let classes := model_classes in
        match prob_dict_get prediction classes probabilities with
        | None => Raised KeyError
        | Some p =>
            let confidence := percent p in
            (* explainability, intents, the two notes, the response *)
            match buildExplanation U message prediction confidence with
            | OK response => Done (ok_200 response)
            | Raise e => Raised (InAnalyzer e)
            end
        end.

End Route.

Arguments prob_dict_get {P} prediction classes probabilities.
Arguments predict U {Vec P C} _ _ _ _ _ data.

(** The route with a stand-in for the classifier, to run it: the label is
    spam when the message contains ["prize"], and the two probabilities are
    percentages already. *)
Definition demo_route : json -> outcome (reply Z) :=
  predict ascii_db
    (fun message => message)
    (fun vec => if in_str (lit "prize") vec then lit "spam" else lit "ham")
    (fun vec => if in_str (lit "prize") vec then [4; 96]%Z else [91; 9]%Z)
    [lit "ham"; lit "spam"]
    (fun p => p).


(* ================================================================== *)
(** ** The properties, in the terms of the specification

    What the steps of the specification flag and emit, written as filters
    over the keyword lists, to be compared with the loops above. *)

(** [p] occurs in [s] as a substring. *)
Definition substring (p s : str) : Prop :=
  exists a b, s = a ++ p ++ b.

(** At least two different terms of [keywords] occur in [msg_lower] as
    substrings. *)
Definition two_terms_occur (keywords : list str) (msg_lower : str) : Prop :=
  exists w1 w2, w1 <> w2 /\ In w1 keywords /\ In w2 keywords
                /\ substring w1 msg_lower /\ substring w2 msg_lower.

Section Spec.
Variable U : Unicode.

(** The word tokens of the lowercased message. *)
Definition tokens (message : str) : list str :=
  Re.findall_words U (lower U message).

(** Step 2: the spam keywords that are tokens, in the order of the list. *)
Definition keyword_hits (message : str) : list str :=
  filter (fun k => in_list k (tokens message)) SPAM_KEYWORDS.

(** Step 3: the urgency words that are substrings of the lowercased message
    and were not flagged by step 2, in the order of the list. *)
Definition urgency_hits (message : str) : list str :=
  filter (fun w => in_str w (lower U message)
                   && negb (in_list w (keyword_hits message)))
         URGENCY_WORDS.

(** Steps 4 and 5: the two patterns against the raw message. *)
Definition url_found (message : str) : bool :=
  Re.search U true URL_PATTERN message.

Definition symbols_found (message : str) : bool :=
  Re.search U false EXCESSIVE_SYMBOL_PATTERN message.

(** Step 6 as the code computes it: the uppercase letters [A-Z] are more
    than half of the characters that are ASCII letters or spaces. *)
Definition caps_excess (message : str) : bool :=
  (len (filter letter_or_space message)
     <? 2 * len (filter ascii_upper message))%Z.

(** The flagged terms in the order the steps insert them. *)
Definition insertion_order (message : str) : list str :=
  keyword_hits message ++ urgency_hits message
    ++ (if url_found message then [lit "http"; lit "www"] else []).

(** The reasons in the order the steps emit them. *)
Definition emission_order (message : str) : list str :=
  map keyword_reason (keyword_hits message)
    ++ map urgency_reason (urgency_hits message)
    ++ (if url_found message then [url_reason] else [])
    ++ (if symbols_found message then [symbols_reason] else [])
    ++ (if caps_excess message then [caps_reason] else []).

(** The flagged terms when the urgency scan has gone through [scanned], a
    prefix of [URGENCY_WORDS]. *)
Definition flagged_after (message : str) (scanned : list str) : list str :=
  fst (fold_left (check_urgency (lower U message)) scanned
         (fold_left (check_keyword (tokens message)) SPAM_KEYWORDS
                    ([], []))).

(** A category qualifies when its match count is at least 2. *)
Definition qualifies (keywords : list str) (message : str) : bool :=
  (matches_of keywords (lower U message) >=? 2)%Z.

(** The descriptors of the categories that qualify, in the fixed order
    money theft, data theft, panic, malware. *)
Definition in_fixed_order (money data panic malware : bool)
    : list IntentDescriptor :=
  (if money then [steal_money] else [])
    ++ (if data then [steal_data] else [])
    ++ (if panic then [create_panic] else [])
    ++ (if malware then [install_malware] else []).

Definition qualifying (message : str) : list IntentDescriptor :=
  in_fixed_order (qualifies MONEY_THEFT_KEYWORDS message)
                 (qualifies DATA_THEFT_KEYWORDS message)
                 (qualifies PANIC_KEYWORDS message)
                 (qualifies MALWARE_KEYWORDS message && url_found message).

(** Where a reason of the analyzer comes from. *)
Inductive emitted (message : str) (r : str) : Prop :=
| by_keyword k :
    In k (keyword_hits message) -> r = keyword_reason k -> emitted message r
| by_urgency w :
    In w (urgency_hits message) -> r = urgency_reason w -> emitted message r
| by_url : url_found message = true -> r = url_reason -> emitted message r
| by_symbols :
    symbols_found message = true -> r = symbols_reason -> emitted message r
| by_caps : caps_excess message = true -> r = caps_reason -> emitted message r.

End Spec.

(** The four specific descriptors, and all five. *)
Definition specific_intents : list IntentDescriptor :=
  [steal_money; steal_data; create_panic; install_malware].

Definition all_intents : list IntentDescriptor :=
  specific_intents ++ [deceptive_intent].

Definition ascii_letter (c : N) : bool := ascii_lower c || ascii_upper c.

(** Step 6 as the specification words it, for a message of ASCII
    characters: the letters are not empty and the uppercase ones are more
    than half of the letters. *)
Definition caps_ratio_over_letters (message : str) : Prop :=
  filter ascii_letter message <> []
  /\ (len (filter ascii_letter message)
        < 2 * len (filter ascii_upper message))%Z.

(** [t] stands in [s] between [a] and [b] with no word character next to
    it: [a] is empty or ends with a character that is not a word character,
    [b] is empty or starts with one. *)
Definition delimited (U : Unicode) (a t b : str) : Prop :=
  (a = [] \/ exists a' c, a = a' ++ [c] /\ Re.is_word U c = false)
  /\ (b = [] \/ exists c b', b = c :: b' /\ Re.is_word U c = false).

(** The characters of the class of the symbol pattern. *)
Definition symbol_characters : list N :=
  [33; 0xA3; 36; 0x20AC; 64; 35; 37; 38; 42].

(** No string occurs twice in [l]. *)
Fixpoint nodupb (l : list str) : bool :=
  match l with
  | [] => true
  | x :: l' => negb (in_list x l') && nodupb l'
  end.

(* ================================================================== *)
(** ** Facts about the builtins *)

Lemma str_eqb_eq (a b : str) : str_eqb a b = true <-> a = b.
Proof.
  revert b; induction a as [|x a IH]; intros [|y b]; simpl;
    try (split; congruence).
  rewrite andb_true_iff, N.eqb_eq, IH. split.
  - intros [-> ->]; reflexivity.
  - intros H; injection H; auto.
Qed.

Lemma in_list_In (x : str) (l : list str) : in_list x l = true <-> In x l.
Proof.
  unfold in_list. rewrite existsb_exists. split.
  - intros (y & Hy & E). apply str_eqb_eq in E. subst; assumption.
  - intros H. exists x. split; [assumption | apply str_eqb_eq; reflexivity].
Qed.

Lemma in_list_false (x : str) (l : list str) :
  in_list x l = false <-> ~ In x l.
Proof.
  rewrite <- in_list_In. destruct (in_list x l); split; congruence.
Qed.

Lemma nodupb_NoDup (l : list str) : nodupb l = true -> NoDup l.
Proof.
  induction l as [|x l IH]; simpl; intros H; constructor.
  - apply andb_true_iff in H. destruct H as [H _].
    apply in_list_false. now apply negb_true_iff.
  - apply IH. apply andb_true_iff in H. tauto.
Qed.

Lemma startswith_app (p s : str) :
  startswith p s = true <-> exists b, s = p ++ b.
Proof.
  revert s; induction p as [|x p IH]; intros s; simpl.
  - split; [exists s; reflexivity | reflexivity].
  - destruct s as [|y s].
    + split; [discriminate | intros [b Hb]; discriminate].
    + rewrite andb_true_iff, N.eqb_eq, IH. split.
      * intros [-> [b ->]]. exists b; reflexivity.
      * intros [b Hb]. injection Hb as -> ->. split; [reflexivity|].
        exists b; reflexivity.
Qed.

(** [in] on strings is the substring test. *)
Lemma in_str_substring (p s : str) : in_str p s = true <-> substring p s.
Proof.
  unfold substring. induction s as [|y s IH]; simpl.
  - rewrite orb_false_r, startswith_app. split.
    + intros [b Hb]. exists [], b. exact Hb.
    + intros (a & b & H). destruct a as [|z a]; [|discriminate].
      exists b; exact H.
  - rewrite orb_true_iff, startswith_app, IH. split.
    + intros [[b Hb] | (a & b & Hab)].
      * exists [], b. exact Hb.
      * exists (y :: a), b. simpl. now rewrite Hab.
    + intros (a & b & H). destruct a as [|z a].
      * left. exists b. exact H.
      * right. simpl in H. injection H as _ H. exists a, b. exact H.
Qed.

Lemma sum_if_from {A} (f : A -> bool) (l : list A) (acc : Z) :
  fold_left (fun acc x => if f x then (acc + 1)%Z else acc) l acc
  = (acc + len (filter f l))%Z.
Proof.
  unfold len. revert acc; induction l as [|x l IH]; intros acc; simpl.
  - lia.
  - rewrite IH. destruct (f x); cbn [List.length]; lia.
Qed.

(** The generator sum counts the elements that pass the test. *)
Lemma sum_if_count {A} (f : A -> bool) (l : list A) :
  sum_if f l = len (filter f l).
Proof. unfold sum_if. now rewrite sum_if_from. Qed.

Lemma fromkeys_from_In (seen l : list str) (x : str) :
  In x (fromkeys_from seen l) <-> In x l /\ ~ In x seen.
Proof.
  revert seen; induction l as [|y l IH]; intros seen; simpl.
  - tauto.
  - destruct (in_list y seen) eqn:E.
    + apply in_list_In in E. rewrite IH. split.
      * tauto.
      * intros [[-> | H] Hn]; [contradiction | tauto].
    + apply in_list_false in E. simpl. rewrite IH. simpl. split.
      * intros [-> | [H Hn]]; [tauto|]. split; [tauto|]. tauto.
      * intros [[-> | H] Hn]; [tauto|].
        destruct (list_eq_dec N.eq_dec y x) as [-> | Hne]; [tauto|].
        right. split; [assumption|]. intros [? | ?]; contradiction.
Qed.

Lemma fromkeys_from_NoDup (seen l : list str) : NoDup (fromkeys_from seen l).
Proof.
  revert seen; induction l as [|y l IH]; intros seen; simpl.
  - constructor.
  - destruct (in_list y seen); [apply IH|]. constructor; [|apply IH].
    rewrite fromkeys_from_In. simpl. tauto.
Qed.

Lemma fromkeys_from_id (seen l : list str) :
  NoDup l -> (forall x, In x l -> ~ In x seen) -> fromkeys_from seen l = l.
Proof.
  revert seen; induction l as [|y l IH]; intros seen ND Hd; simpl.
  - reflexivity.
  - inversion ND as [|? ? Hy ND']; subst.
    assert (E : in_list y seen = false)
      by (apply in_list_false, Hd; left; reflexivity).
    rewrite E. f_equal. apply IH; [assumption|].
    intros x Hx [-> | Hs]; [contradiction|].
    apply (Hd x); [right; assumption | assumption].
Qed.

(** [dict.fromkeys] leaves no duplicates, keeps every key, and changes
    nothing in a list without duplicates. *)
Lemma dict_fromkeys_NoDup (l : list str) : NoDup (dict_fromkeys l).
Proof. apply fromkeys_from_NoDup. Qed.

Lemma dict_fromkeys_In (l : list str) (x : str) :
  In x (dict_fromkeys l) <-> In x l.
Proof. unfold dict_fromkeys. rewrite fromkeys_from_In. simpl. tauto. Qed.

Lemma dict_fromkeys_id (l : list str) : NoDup l -> dict_fromkeys l = l.
Proof. intros ND. apply fromkeys_from_id; [assumption | auto]. Qed.

(** Comparing the quotient with one half. *)
Lemma truediv_gt_half (a b : Z) :
  (0 < b)%Z ->
  truediv a b = OK (inject_Z a / inject_Z b)%Q
  /\ gt_half (inject_Z a / inject_Z b)%Q = (b <? 2 * a)%Z.
Proof.
  intros Hb. unfold truediv.
  destruct (Z.eqb_spec b 0) as [-> | _]; [lia|]. split; [reflexivity|].
  unfold gt_half.
  destruct b as [|p|p]; try lia.
  destruct (Z.ltb_spec (Z.pos p) (2 * a)) as [H | H].
  - apply negb_true_iff. apply not_true_is_false. intros E.
    apply Qle_bool_iff in E. unfold Qle in E. simpl in E. lia.
  - apply negb_false_iff. apply Qle_bool_iff. unfold Qle. simpl. lia.
Qed.

(* ================================================================== *)
(** ** The keyword lists have no repeated entry *)

Lemma SPAM_KEYWORDS_NoDup : NoDup SPAM_KEYWORDS.
Proof. apply nodupb_NoDup. vm_compute. reflexivity. Qed.

Lemma URGENCY_WORDS_NoDup : NoDup URGENCY_WORDS.
Proof. apply nodupb_NoDup. vm_compute. reflexivity. Qed.

Lemma MONEY_THEFT_KEYWORDS_NoDup : NoDup MONEY_THEFT_KEYWORDS.
Proof. apply nodupb_NoDup. vm_compute. reflexivity. Qed.

Lemma DATA_THEFT_KEYWORDS_NoDup : NoDup DATA_THEFT_KEYWORDS.
Proof. apply nodupb_NoDup. vm_compute. reflexivity. Qed.

Lemma PANIC_KEYWORDS_NoDup : NoDup PANIC_KEYWORDS.
Proof. apply nodupb_NoDup. vm_compute. reflexivity. Qed.

Lemma MALWARE_KEYWORDS_NoDup : NoDup MALWARE_KEYWORDS.
Proof. apply nodupb_NoDup. vm_compute. reflexivity. Qed.

(** The two URL markers are not keywords of either list. *)
Lemma markers_fresh (x : str) :
  In x [lit "http"; lit "www"] ->
  ~ In x SPAM_KEYWORDS /\ ~ In x URGENCY_WORDS.
Proof.
  intros [<- | [<- | []]]; split; apply in_list_false; vm_compute;
    reflexivity.
Qed.

(* ================================================================== *)
(** ** The two scanning loops *)

Section Loops.

(** Check 1 over a list without repetition, none of it flagged yet: the
    entries that are tokens are appended, in order, each with its reason. *)
Lemma check_keyword_fold (words : list str) (l sw ex : list str) :
  NoDup l -> (forall k, In k l -> ~ In k sw) ->
  fold_left (check_keyword words) l (sw, ex)
  = (sw ++ filter (fun k => in_list k words) l,
     ex ++ map keyword_reason (filter (fun k => in_list k words) l)).
Proof.
  revert sw ex; induction l as [|k l IH]; intros sw ex ND Hd; simpl.
  - now rewrite !app_nil_r.
  - inversion ND as [|? ? Hk ND']; subst.
    assert (Ek : in_list k sw = false)
      by (apply in_list_false, Hd; left; reflexivity).
    rewrite Ek. destruct (in_list k words); simpl.
    + rewrite IH; [|assumption|].
      * now rewrite <- !app_assoc.
      * intros k' Hk' Hin. apply in_app_or in Hin.
        destruct Hin as [Hin | [-> | []]]; [|contradiction].
        apply (Hd k'); [right; assumption | assumption].
    + apply IH; [assumption|]. intros k' Hk'. apply Hd. now right.
Qed.

(** Check 2 over a list without repetition: the entries that are
    substrings and are not among the terms flagged before the loop are
    appended, in order, each with its reason. *)
Lemma check_urgency_fold (msg_lower : str) (l sw ex : list str) :
  NoDup l ->
  fold_left (check_urgency msg_lower) l (sw, ex)
  = (sw ++ filter (fun w => in_str w msg_lower && negb (in_list w sw)) l,
     ex ++ map urgency_reason
             (filter (fun w => in_str w msg_lower && negb (in_list w sw)) l)).
Proof.
  revert sw ex; induction l as [|w l IH]; intros sw ex ND; simpl.
  - now rewrite !app_nil_r.
  - inversion ND as [|? ? Hw ND']; subst.
    destruct (in_str w msg_lower && negb (in_list w sw)); simpl.
    + rewrite IH by assumption.
      assert (E : filter (fun w0 => in_str w0 msg_lower
                                    && negb (in_list w0 (sw ++ [w]))) l
                  = filter (fun w0 => in_str w0 msg_lower
                                      && negb (in_list w0 sw)) l).
      { apply filter_ext_in. intros w' Hw'. f_equal. f_equal.
        destruct (in_list w' sw) eqn:E1.
        - apply in_list_In. apply in_or_app. left. now apply in_list_In.
        - apply in_list_false. intros Hin. apply in_app_or in Hin.
          destruct Hin as [Hin | [-> | []]]; [|contradiction].
          apply in_list_false in E1. contradiction. }
      rewrite E. now rewrite <- !app_assoc.
    + now apply IH.
Qed.

End Loops.

(* ================================================================== *)
(** ** The analyzer in closed form *)

Section Analyzer.
Variable U : Unicode.

Lemma letter_or_space_ascii (c : N) : letter_or_space c = true -> c < 128.
Proof.
  unfold letter_or_space, ascii_lower, ascii_upper. intros H.
  repeat (apply orb_true_iff in H; destruct H as [H | H]);
    try (apply andb_true_iff in H; destruct H as [_ H];
         apply N.leb_le in H; lia).
  apply N.eqb_eq in H. lia.
Qed.

Lemma upper_is_letter (c : N) :
  ascii_upper c = true -> letter_or_space c = true.
Proof.
  unfold letter_or_space. intros ->. now rewrite orb_true_r.
Qed.

(** Among the characters [re.sub] keeps, [str.isupper] picks the capitals
    of the message. *)
Lemma isupper_words_only (message : str) :
  filter (isupper U) (filter letter_or_space message)
  = filter ascii_upper message.
Proof.
  induction message as [|c s IH]; simpl; [reflexivity|].
  destruct (letter_or_space c) eqn:E; simpl.
  - rewrite (isupper_ascii U c (letter_or_space_ascii c E)).
    destruct (ascii_upper c); now rewrite IH.
  - destruct (ascii_upper c) eqn:Eu; [|assumption].
    apply upper_is_letter in Eu. congruence.
Qed.

(** Check 5 never divides by zero, and its condition compares the
    capitals with half of the letters and spaces. *)
Lemma caps_check_words_only (message : str) :
  caps_check U (filter letter_or_space message) = OK (caps_excess message).
Proof.
  unfold caps_check, caps_excess.
  rewrite sum_if_count, isupper_words_only.
  destruct (filter letter_or_space message) as [|c w] eqn:E; simpl truthy; cbv iota.
  - f_equal. symmetry. apply Z.ltb_ge.
    rewrite <- isupper_words_only, E. simpl. unfold len. simpl. lia.
  - assert (Hpos : (0 < len (c :: w))%Z)
      by (unfold len; cbn [List.length]; lia).
    rewrite Z.max_l by lia.
    destruct (truediv_gt_half (len (filter ascii_upper message))
                (len (c :: w)) Hpos) as [E1 E2].
    rewrite E1. cbn [bind]. now rewrite E2.
Qed.

Lemma keyword_scan (message : str) :
  fold_left (check_keyword (tokens U message)) SPAM_KEYWORDS ([], [])
  = (keyword_hits U message, map keyword_reason (keyword_hits U message)).
Proof.
  rewrite check_keyword_fold; [|apply SPAM_KEYWORDS_NoDup|].
  - unfold keyword_hits. reflexivity.
  - intros k _ [].
Qed.

Lemma keyword_hits_In (message k : str) :
  In k (keyword_hits U message)
  <-> In k SPAM_KEYWORDS /\ In k (tokens U message).
Proof. unfold keyword_hits. now rewrite filter_In, in_list_In. Qed.

Lemma urgency_hits_In (message w : str) :
  In w (urgency_hits U message)
  <-> In w URGENCY_WORDS /\ substring w (lower U message)
      /\ ~ In w (keyword_hits U message).
Proof.
  unfold urgency_hits.
  now rewrite filter_In, andb_true_iff, in_str_substring, negb_true_iff,
    in_list_false.
Qed.

Lemma insertion_order_NoDup (message : str) :
  NoDup (insertion_order U message).
Proof.
  assert (Hm : forall x,
             In x (if url_found U message then [lit "http"; lit "www"]
                   else []) ->
             ~ In x SPAM_KEYWORDS /\ ~ In x URGENCY_WORDS).
  { intros x Hx. destruct (url_found U message); [|destruct Hx].
    now apply markers_fresh. }
  unfold insertion_order. apply NoDup_app.
  - apply NoDup_filter, SPAM_KEYWORDS_NoDup.
  - apply NoDup_app.
    + apply NoDup_filter, URGENCY_WORDS_NoDup.
    + destruct (url_found U message); [|constructor].
      apply nodupb_NoDup. vm_compute. reflexivity.
    + intros x Hx Hin. apply urgency_hits_In in Hx.
      destruct Hx as [Hx _]. apply Hm in Hin. destruct Hin as [_ Hin].
      exact (Hin Hx).
  - intros x Hx Hin. apply in_app_or in Hin. destruct Hin as [Hu | Hin].
    + apply urgency_hits_In in Hu. destruct Hu as (_ & _ & Hu).
      exact (Hu Hx).
    + apply keyword_hits_In in Hx. destruct Hx as [Hx _].
      apply Hm in Hin. destruct Hin as [Hin _]. exact (Hin Hx).
Qed.

Lemma check_urls_closed (message : str) (sw ex : list str) :
  check_urls U message (sw, ex)
  = (sw ++ (if url_found U message then [lit "http"; lit "www"] else []),
     ex ++ (if url_found U message then [url_reason] else [])).
Proof.
  unfold check_urls, url_found.
  destruct (Re.search U true URL_PATTERN message).
  - now rewrite <- app_assoc.
  - now rewrite !app_nil_r.
Qed.

Lemma check_symbols_closed (message : str) (sw ex : list str) :
  check_symbols U message (sw, ex)
  = (sw, ex ++ (if symbols_found U message then [symbols_reason] else [])).
Proof.
  unfold check_symbols, symbols_found.
  destruct (Re.search U false EXCESSIVE_SYMBOL_PATTERN message).
  - reflexivity.
  - now rewrite app_nil_r.
Qed.

Lemma check_caps_closed (message : str) (sw ex : list str) :
  check_caps U message (sw, ex)
  = OK (sw, ex ++ (if caps_excess message then [caps_reason] else [])).
Proof.
  unfold check_caps. rewrite caps_check_words_only. cbn [bind].
  destruct (caps_excess message).
  - reflexivity.
  - now rewrite app_nil_r.
Qed.

(** Check 2 after check 1. *)
Lemma urgency_scan (message : str) :
  fold_left (check_urgency (lower U message)) URGENCY_WORDS
    (keyword_hits U message, map keyword_reason (keyword_hits U message))
  = (keyword_hits U message ++ urgency_hits U message,
     map keyword_reason (keyword_hits U message)
       ++ map urgency_reason (urgency_hits U message)).
Proof.
  rewrite check_urgency_fold by apply URGENCY_WORDS_NoDup.
  unfold urgency_hits. reflexivity.
Qed.

(** The two orders, unfolded once. *)
Lemma insertion_order_eq (message : str) :
  insertion_order U message = keyword_hits U message ++ urgency_hits U message
    ++ (if url_found U message then [lit "http"; lit "www"] else []).
Proof. unfold insertion_order. reflexivity. Qed.

Lemma emission_order_eq (message : str) :
  emission_order U message = 
  map keyword_reason (keyword_hits U message)
    ++ map urgency_reason (urgency_hits U message)
    ++ (if url_found U message then [url_reason] else [])
    ++ (if symbols_found U message then [symbols_reason] else [])
    ++ (if caps_excess message then [caps_reason] else []).
Proof. unfold emission_order. reflexivity. Qed.

(** [explain_message] returns, and returns the terms in insertion order
    and the reasons in emission order. *)
Lemma explain_message_closed (message : str) :
  explain_message U message
  = OK (insertion_order U message, emission_order U message).
Proof.
  unfold explain_message. cbv zeta.
  pose proof (keyword_scan message) as KS. unfold tokens at 1 in KS.
  rewrite KS, urgency_scan.
  rewrite check_urls_closed, check_symbols_closed, check_caps_closed.
  cbn [bind].
  rewrite <- !app_assoc.
  rewrite <- insertion_order_eq, <- emission_order_eq.
  rewrite (dict_fromkeys_id _ (insertion_order_NoDup message)).
  reflexivity.
Qed.

End Analyzer.

(* ================================================================== *)
(** ** Where the reasons come from *)

Section Reasons.
Variable U : Unicode.

Lemma keyword_reason_inj (k k' : str) :
  keyword_reason k = keyword_reason k' -> k = k'.
Proof.
  unfold keyword_reason. intros H.
  apply app_inv_head in H. apply app_inv_head in H.
  now apply app_inv_tail in H.
Qed.

Lemma urgency_reason_inj (w w' : str) :
  urgency_reason w = urgency_reason w' -> w = w'.
Proof.
  unfold urgency_reason. intros H.
  apply app_inv_head in H. apply app_inv_head in H.
  now apply app_inv_tail in H.
Qed.

Lemma In_if_singleton {A} (b : bool) (x r : A) :
  In r (if b then [x] else []) <-> b = true /\ r = x.
Proof.
  destruct b; simpl.
  - split; [intros [<- | []]; auto | intros [_ ->]; auto].
  - split; [intros [] | intros [H _]; discriminate].
Qed.

Lemma emission_order_In (message r : str) :
  In r (emission_order U message) <-> emitted U message r.
Proof.
  rewrite emission_order_eq, !in_app_iff, !in_map_iff, !In_if_singleton.
  split.
  - intros [(k & <- & Hk) | [(w & <- & Hw) | [[H ->] | [[H ->] | [H ->]]]]].
    + now apply by_keyword with k.
    + now apply by_urgency with w.
    + now apply by_url.
    + now apply by_symbols.
    + now apply by_caps.
  - intros [k Hk -> | w Hw -> | H -> | H -> | H ->].
    + left. now exists k.
    + right; left. now exists w.
    + right; right; left. now split.
    + right; right; right; left. now split.
    + right; right; right; right. now split.
Qed.

End Reasons.

(** Two reasons of different kinds differ in their first character. *)
Ltac hd_clash H :=
  apply (f_equal (hd 0)) in H; cbv in H; discriminate H.

Section ReasonsOfSteps.
Variable U : Unicode.

Lemma emitted_keyword (message k : str) :
  emitted U message (keyword_reason k) <-> In k (keyword_hits U message).
Proof.
  split.
  - intros [k' Hk E | w _ E | _ E | _ E | _ E]; try hd_clash E.
    apply keyword_reason_inj in E. now subst.
  - intros H. now apply by_keyword with k.
Qed.

Lemma emitted_urgency (message w : str) :
  emitted U message (urgency_reason w) <-> In w (urgency_hits U message).
Proof.
  split.
  - intros [k _ E | w' Hw E | _ E | _ E | _ E]; try hd_clash E.
    apply urgency_reason_inj in E. now subst.
  - intros H. now apply by_urgency with w.
Qed.

Lemma emitted_caps (message : str) :
  emitted U message caps_reason <-> caps_excess message = true.
Proof.
  split.
  - intros [k _ E | w _ E | _ E | _ E | H _]; try hd_clash E. exact H.
  - intros H. now apply by_caps.
Qed.

(** The two notes of the route are not reasons of the analyzer. *)
Lemma ham_note_not_emitted (message : str) : ~ emitted U message ham_note.
Proof. intros [k _ E | w _ E | _ E | _ E | _ E]; hd_clash E. Qed.

Lemma ml_note_not_emitted (message : str) : ~ emitted U message ml_note.
Proof. intros [k _ E | w _ E | _ E | _ E | _ E]; hd_clash E. Qed.

(** The flagged terms while the urgency list is being scanned. *)
Lemma flagged_after_eq (message : str) (scanned : list str) :
  NoDup scanned ->
  flagged_after U message scanned
  = keyword_hits U message
      ++ filter (fun w => in_str w (lower U message)
                          && negb (in_list w (keyword_hits U message)))
                scanned.
Proof.
  intros ND. unfold flagged_after.
  rewrite keyword_scan, check_urgency_fold by assumption. reflexivity.
Qed.

Lemma flagged_before_word (message : str) (scanned rest : list str) (w : str) :
  URGENCY_WORDS = scanned ++ w :: rest ->
  (In w (flagged_after U message scanned)
   <-> In w (keyword_hits U message)).
Proof.
  intros E. pose proof URGENCY_WORDS_NoDup as ND. rewrite E in ND.
  rewrite flagged_after_eq by (eapply NoDup_app_remove_r; exact ND).
  rewrite in_app_iff, filter_In. split.
  - intros [H | [H _]]; [exact H|].
    apply NoDup_remove_2 in ND. exfalso. apply ND. apply in_or_app. now left.
  - intros H. now left.
Qed.

End ReasonsOfSteps.

(* ================================================================== *)
(** ** The analyzer: flagged terms and reasons *)

(** C1. For every message, the flagged terms [explain_message] returns have
    no duplicate and stand in the order of their first insertion (the spam
    keywords that are tokens, in list order, then the urgency words not yet
    flagged that are substrings, in list order, then the two URL markers),
    and the reasons stand in the order the checks emit them: keyword
    reasons, urgency reasons, URL reason, symbols reason, CAPS reason. *)
Theorem C1_flagged_terms_unique_in_order
    (U : Unicode) (message : str) (flagged reasons : list str) :
  explain_message U message = OK (flagged, reasons) ->
  NoDup flagged
  /\ flagged
     = keyword_hits U message ++ urgency_hits U message
         ++ (if url_found U message then [lit "http"; lit "www"] else [])
  /\ reasons
     = map keyword_reason (keyword_hits U message)
         ++ map urgency_reason (urgency_hits U message)
         ++ (if url_found U message then [url_reason] else [])
         ++ (if symbols_found U message then [symbols_reason] else [])
         ++ (if caps_excess message then [caps_reason] else []).
Proof.
  rewrite explain_message_closed. intros H. injection H as <- <-.
  split; [apply insertion_order_NoDup|].
  split; [apply insertion_order_eq | apply emission_order_eq].
Qed.

Lemma C1_witness :
  exists reasons,
    explain_message ascii_db (lit "free today www.x.ru")
    = OK ([lit "free"; lit "today"; lit "http"; lit "www"], reasons)
    /\ NoDup [lit "free"; lit "today"; lit "http"; lit "www"].
Proof.
  eexists.
  assert (H : explain_message ascii_db (lit "free today www.x.ru")
              = OK ([lit "free"; lit "today"; lit "http"; lit "www"], _))
    by (vm_compute; reflexivity).
  split; [exact H|].
  exact (proj1 (C1_flagged_terms_unique_in_order _ _ _ _ H)).
Defined.

(** C2, as the code has it.  For every message, the CAPS reason is appended
    if and only if the capitals [A-Z] of the message, counted twice, are
    more than its characters that are ASCII letters or spaces: the
    denominator of the ratio counts the spaces too, and letters outside
    ASCII count on neither side. *)
Theorem C2_caps_over_letters_and_spaces
    (U : Unicode) (message : str) (flagged reasons : list str) :
  explain_message U message = OK (flagged, reasons) ->
  (In caps_reason reasons
   <-> (len (filter letter_or_space message)
          < 2 * len (filter ascii_upper message))%Z).
Proof.
  rewrite explain_message_closed. intros H. injection H as _ <-.
  rewrite emission_order_In, emitted_caps. unfold caps_excess.
  apply Z.ltb_lt.
Qed.

Lemma C2_witness :
  exists flagged reasons,
    explain_message ascii_db (lit "ABC d") = OK (flagged, reasons)
    /\ (In caps_reason reasons
        <-> (len (filter letter_or_space (lit "ABC d"))
               < 2 * len (filter ascii_upper (lit "ABC d")))%Z).
Proof.
  do 2 eexists.
  assert (H : explain_message ascii_db (lit "ABC d") = OK (_, _))
    by (vm_compute; reflexivity).
  split; [exact H|].
  exact (C2_caps_over_letters_and_spaces _ _ _ _ H).
Defined.

(** C2 as the specification states it fails on ["AB c"]: two of its three
    letters are capitals, a ratio above one half, yet no CAPS reason is
    given, because the space is counted among the four characters. *)
Lemma C2_counterexample :
  exists flagged reasons,
    explain_message ascii_db (lit "AB c") = OK (flagged, reasons)
    /\ ~ (In caps_reason reasons <-> caps_ratio_over_letters (lit "AB c")).
Proof.
  exists [], []. split; [vm_compute; reflexivity|].
  intros [_ H]. apply H. split.
  - vm_compute. discriminate.
  - vm_compute. reflexivity.
Qed.

(** C3. A spam keyword is flagged, with its keyword reason, exactly when it
    is one of the word tokens of the lowercased message; an urgency word is
    flagged, with its urgency reason, exactly when it is a substring of the
    lowercased message and is not among the flagged terms when the scan
    reaches it; the terms and reasons of both lists come out in list
    order ([keyword_hits] and [urgency_hits] filter the two lists). *)
Theorem C3_keywords_by_token_urgency_by_substring
    (U : Unicode) (message : str) (flagged reasons : list str) :
  explain_message U message = OK (flagged, reasons) ->
  (forall k, In k SPAM_KEYWORDS ->
     (In k flagged /\ In (keyword_reason k) reasons
      <-> In k (tokens U message)))
  /\ (forall scanned w rest, URGENCY_WORDS = scanned ++ w :: rest ->
        (In w flagged /\ In (urgency_reason w) reasons
         <-> substring w (lower U message)
             /\ ~ In w (flagged_after U message scanned)))
  /\ (exists more_terms more_reasons,
        flagged
        = keyword_hits U message ++ urgency_hits U message ++ more_terms
        /\ reasons
           = map keyword_reason (keyword_hits U message)
               ++ map urgency_reason (urgency_hits U message)
               ++ more_reasons).
Proof.
  rewrite explain_message_closed. intros H. injection H as <- <-.
  split; [|split].
  - intros k Hk. rewrite emission_order_In, emitted_keyword, keyword_hits_In.
    split; [intros [_ [_ H]]; exact H|].
    intros H. split; [|now split].
    rewrite insertion_order_eq. apply in_or_app. left.
    apply keyword_hits_In. now split.
  - intros scanned w rest E.
    rewrite emission_order_In, emitted_urgency, urgency_hits_In.
    rewrite (flagged_before_word U message scanned rest w E).
    assert (Hw : In w URGENCY_WORDS)
      by (rewrite E; apply in_or_app; right; left; reflexivity).
    split.
    + intros [_ (_ & Hs & Hn)]. now split.
    + intros [Hs Hn]. split; [|now repeat split].
      rewrite insertion_order_eq. apply in_or_app. right.
      apply in_or_app. left. apply urgency_hits_In. now repeat split.
  - eexists. eexists. split.
    + apply insertion_order_eq.
    + apply emission_order_eq.
Qed.

Lemma C3_witness :
  exists flagged reasons,
    explain_message ascii_db (lit "Act fast, knowing") = OK (flagged, reasons)
    /\ (In (lit "act") flagged /\ In (keyword_reason (lit "act")) reasons
        <-> In (lit "act") (tokens ascii_db (lit "Act fast, knowing")))
    /\ (In (lit "now") flagged /\ In (urgency_reason (lit "now")) reasons
        <-> substring (lit "now") (lower ascii_db (lit "Act fast, knowing"))
            /\ ~ In (lit "now")
                    (flagged_after ascii_db (lit "Act fast, knowing")
                       (map lit ["urgent"; "immediately"]))).
Proof.
  do 2 eexists.
  assert (H : explain_message ascii_db (lit "Act fast, knowing") = OK (_, _))
    by (vm_compute; reflexivity).
  split; [exact H|].
  destruct (C3_keywords_by_token_urgency_by_substring _ _ _ _ H)
    as (Hk & Hu & _).
  split.
  - apply Hk. apply in_list_In. vm_compute. reflexivity.
  - apply (Hu _ _ (map lit ["today"; "expires"; "limited"; "hurry"; "act";
                            "fast"; "quick"; "instant"; "deadline";
                            "last chance"; "expiring"])).
    vm_compute. reflexivity.
Defined.

(* ================================================================== *)
(** ** The intent detector *)

Lemma str_eqb_refl (a : str) : str_eqb a a = true.
Proof. now apply str_eqb_eq. Qed.

(** In a list without repetition, two or more entries pass a test exactly
    when two different entries pass it. *)
Lemma two_pass (f : str -> bool) (l : list str) :
  NoDup l ->
  ((2 <= len (filter f l))%Z
   <-> exists x y, x <> y /\ In x l /\ In y l /\ f x = true /\ f y = true).
Proof.
  intros ND. apply (NoDup_filter f) in ND. unfold len. split.
  - intros H. destruct (filter f l) as [|x [|y r]] eqn:E;
      cbn [List.length] in H; try lia.
    assert (Hx : In x (filter f l)) by (rewrite E; now left).
    assert (Hy : In y (filter f l)) by (rewrite E; right; now left).
    apply filter_In in Hx, Hy. exists x, y.
    inversion ND as [|? ? Hn _]; subst.
    split; [intros ->; apply Hn; now left | tauto].
  - intros (x & y & Hne & Hx & Hy & Fx & Fy).
    assert (Hi : incl [x; y] (filter f l)).
    { intros z [<- | [<- | []]]; apply filter_In; now split. }
    apply NoDup_incl_length in Hi.
    + cbn [List.length] in Hi. lia.
    + constructor; [intros [-> | []]; now apply Hne|].
      constructor; [intros []|constructor].
Qed.

Section Intents.
Variable U : Unicode.

(** The threshold on the count is the presence of two different terms. *)
Lemma qualifies_two_terms (keywords : list str) (message : str) :
  NoDup keywords ->
  (qualifies U keywords message = true
   <-> two_terms_occur keywords (lower U message)).
Proof.
  intros ND. unfold qualifies, matches_of, two_terms_occur.
  rewrite sum_if_count, Z.geb_le, (two_pass _ _ ND).
  split; intros (x & y & H1 & H2 & H3 & H4 & H5); exists x, y;
    repeat split; try assumption; now apply in_str_substring.
Qed.

Lemma descriptors_differ :
  steal_money <> steal_data /\ steal_money <> create_panic
  /\ steal_money <> install_malware /\ steal_data <> create_panic
  /\ steal_data <> install_malware /\ create_panic <> install_malware
  /\ ~ In deceptive_intent specific_intents.
Proof.
  repeat split; try (intros H; apply (f_equal icon) in H; cbv in H;
                     discriminate H).
  intros [H | [H | [H | [H | []]]]]; apply (f_equal icon) in H; cbv in H;
    discriminate H.
Qed.

Lemma in_fixed_order_In (b1 b2 b3 b4 : bool) (d : IntentDescriptor) :
  In d (in_fixed_order b1 b2 b3 b4)
  <-> (b1 = true /\ d = steal_money) \/ (b2 = true /\ d = steal_data)
      \/ (b3 = true /\ d = create_panic)
      \/ (b4 = true /\ d = install_malware).
Proof.
  unfold in_fixed_order. rewrite !in_app_iff, !In_if_singleton. tauto.
Qed.

Lemma in_fixed_order_nil (b1 b2 b3 b4 : bool) :
  in_fixed_order b1 b2 b3 b4 = []
  <-> b1 = false /\ b2 = false /\ b3 = false /\ b4 = false.
Proof.
  destruct b1, b2, b3, b4; cbn; split; try discriminate; try tauto;
    intros (? & ? & ? & ?); discriminate.
Qed.

Lemma in_fixed_order_shape (b1 b2 b3 b4 : bool) :
  (List.length (in_fixed_order b1 b2 b3 b4) <= 4)%nat
  /\ NoDup (in_fixed_order b1 b2 b3 b4)
  /\ incl (in_fixed_order b1 b2 b3 b4) specific_intents.
Proof.
  destruct descriptors_differ as (D1 & D2 & D3 & D4 & D5 & D6 & _).
  split; [destruct b1, b2, b3, b4; cbn; lia|]. split.
  - destruct b1, b2, b3, b4; cbn;
      repeat (constructor; [cbn; intuition congruence|]); constructor.
  - intros d Hd. apply in_fixed_order_In in Hd. unfold specific_intents.
    cbn. intuition auto.
Qed.

(** The chain of appends of the detector, for given outcomes of the four
    tests. *)
Lemma appends_in_fixed_order (b1 b2 b3 b4 : bool) :
  (let intents := [] in
   let intents := if b1 then intents ++ [steal_money] else intents in
   let intents := if b2 then intents ++ [steal_data] else intents in
   let intents := if b3 then intents ++ [create_panic] else intents in
   let intents := if b4 then intents ++ [install_malware] else intents in
   let intents :=
     if negb (truthy intents) then intents ++ [deceptive_intent]
     else intents in
   intents)
  = if truthy (in_fixed_order b1 b2 b3 b4)
    then in_fixed_order b1 b2 b3 b4
    else [deceptive_intent].
Proof. destruct b1, b2, b3, b4; reflexivity. Qed.

(** [detect_scammer_intent] on a spam verdict. *)
Lemma detect_spam_closed (message : str) :
  detect_scammer_intent U message (lit "spam")
  = if truthy (qualifying U message) then qualifying U message
    else [deceptive_intent].
Proof.
  unfold detect_scammer_intent. rewrite str_eqb_refl. cbn [negb].
  unfold qualifying, qualifies, url_found.
  apply appends_in_fixed_order.
Qed.

End Intents.

(** C4. With a verdict other than spam (ham in particular) the intent
    detector returns the empty sequence, whatever the message. *)
Theorem C4_no_intent_unless_spam
    (U : Unicode) (message prediction : str) :
  prediction <> lit "spam" ->
  detect_scammer_intent U message prediction = [].
Proof.
  intros Hne. unfold detect_scammer_intent.
  destruct (str_eqb prediction (lit "spam")) eqn:E; [|reflexivity].
  apply str_eqb_eq in E. contradiction.
Qed.

Lemma C4_witness :
  lit "ham" <> lit "spam"
  /\ detect_scammer_intent ascii_db (lit "WIN cash prize, claim now")
       (lit "ham") = [].
Proof.
  assert (H : lit "ham" <> lit "spam") by (vm_compute; discriminate).
  split; [exact H|].
  exact (C4_no_intent_unless_spam ascii_db _ _ H).
Defined.

(** C5. On a spam verdict, the money-theft, data-theft and panic
    descriptors are each emitted exactly when two different terms of the
    category's list occur in the lowercased message as substrings; the
    malware descriptor exactly when that holds of its list and the URL
    pattern matches the raw message; and the descriptors of the qualifying
    categories come in the order money theft, data theft, panic,
    malware. *)
Theorem C5_categories_qualify_in_fixed_order (U : Unicode) (message : str) :
  let intents := detect_scammer_intent U message (lit "spam") in
  let msg_lower := lower U message in
  (In steal_money intents
   <-> two_terms_occur MONEY_THEFT_KEYWORDS msg_lower)
  /\ (In steal_data intents
      <-> two_terms_occur DATA_THEFT_KEYWORDS msg_lower)
  /\ (In create_panic intents
      <-> two_terms_occur PANIC_KEYWORDS msg_lower)
  /\ (In install_malware intents
      <-> two_terms_occur MALWARE_KEYWORDS msg_lower
          /\ Re.search U true URL_PATTERN message = true)
  /\ (exists money data panic malware,
        in_fixed_order money data panic malware <> []
        /\ intents = in_fixed_order money data panic malware
        \/ in_fixed_order money data panic malware = []
           /\ intents = [deceptive_intent]).
Proof.
  cbv zeta. rewrite detect_spam_closed.
  rewrite <- (qualifies_two_terms U _ message MONEY_THEFT_KEYWORDS_NoDup).
  rewrite <- (qualifies_two_terms U _ message DATA_THEFT_KEYWORDS_NoDup).
  rewrite <- (qualifies_two_terms U _ message PANIC_KEYWORDS_NoDup).
  rewrite <- (qualifies_two_terms U _ message MALWARE_KEYWORDS_NoDup).
  fold (url_found U message). rewrite <- andb_true_iff.
  unfold qualifying.
  generalize (qualifies U MONEY_THEFT_KEYWORDS message) as b1.
  generalize (qualifies U DATA_THEFT_KEYWORDS message) as b2.
  generalize (qualifies U PANIC_KEYWORDS message) as b3.
  generalize (qualifies U MALWARE_KEYWORDS message && url_found U message)
    as b4.
  intros b4 b3 b2 b1.
  destruct descriptors_differ as (D1 & D2 & D3 & D4 & D5 & D6 & D7).
  assert (Hin : forall d, In d specific_intents ->
            (In d (if truthy (in_fixed_order b1 b2 b3 b4)
                   then in_fixed_order b1 b2 b3 b4
                   else [deceptive_intent])
             <-> In d (in_fixed_order b1 b2 b3 b4))).
  { intros d Hd. destruct (in_fixed_order b1 b2 b3 b4) eqn:E;
      cbn [truthy]; [|tauto].
    split; [intros [<- | []]; contradiction | intros []]. }
  rewrite !Hin by (unfold specific_intents; cbn; auto).
  rewrite !in_fixed_order_In.
  repeat split;
    try (intros [[? ?] | [[? ?] | [[? ?] | [? ?]]]]; congruence);
    try (intros ->; tauto).
  exists b1, b2, b3, b4.
  destruct (in_fixed_order b1 b2 b3 b4) eqn:E; cbn [truthy].
  - right. now split.
  - left. split; [discriminate | reflexivity].
Qed.

(** C6. On a spam verdict the sequence of intents is never empty; it
    holds the generic descriptor exactly when no category qualifies, and
    then holds nothing else; otherwise it holds at most four descriptors,
    all specific and all different. *)
Theorem C6_fallback_only_when_nothing_qualifies
    (U : Unicode) (message : str) :
  let intents := detect_scammer_intent U message (lit "spam") in
  let msg_lower := lower U message in
  intents <> []
  /\ (In deceptive_intent intents
      <-> ~ two_terms_occur MONEY_THEFT_KEYWORDS msg_lower
          /\ ~ two_terms_occur DATA_THEFT_KEYWORDS msg_lower
          /\ ~ two_terms_occur PANIC_KEYWORDS msg_lower
          /\ ~ (two_terms_occur MALWARE_KEYWORDS msg_lower
                /\ Re.search U true URL_PATTERN message = true))
  /\ (In deceptive_intent intents -> intents = [deceptive_intent])
  /\ (~ In deceptive_intent intents ->
      (List.length intents <= 4)%nat /\ NoDup intents
      /\ incl intents specific_intents).
Proof.
  cbv zeta. rewrite detect_spam_closed.
  rewrite <- (qualifies_two_terms U _ message MONEY_THEFT_KEYWORDS_NoDup).
  rewrite <- (qualifies_two_terms U _ message DATA_THEFT_KEYWORDS_NoDup).
  rewrite <- (qualifies_two_terms U _ message PANIC_KEYWORDS_NoDup).
  rewrite <- (qualifies_two_terms U _ message MALWARE_KEYWORDS_NoDup).
  fold (url_found U message). rewrite <- andb_true_iff.
  unfold qualifying.
  generalize (qualifies U MONEY_THEFT_KEYWORDS message) as b1.
  generalize (qualifies U DATA_THEFT_KEYWORDS message) as b2.
  generalize (qualifies U PANIC_KEYWORDS message) as b3.
  generalize (qualifies U MALWARE_KEYWORDS message && url_found U message)
    as b4.
  intros b4 b3 b2 b1.
  destruct descriptors_differ as (_ & _ & _ & _ & _ & _ & D7).
  pose proof (in_fixed_order_shape b1 b2 b3 b4) as (Hlen & Hnd & Hincl).
  pose proof (in_fixed_order_nil b1 b2 b3 b4) as Hnil.
  destruct (in_fixed_order b1 b2 b3 b4) as [|d l] eqn:E; cbn [truthy].
  - destruct Hnil as [Hnil _]. destruct (Hnil eq_refl) as (-> & -> & -> & ->).
    split; [discriminate|]. split; [|split].
    + split; [repeat split; discriminate | intros _; now left].
    + reflexivity.
    + intros Hn. exfalso. apply Hn. now left.
  - split; [discriminate|].
    assert (Hno : ~ In deceptive_intent (d :: l))
      by (intros H; apply D7, Hincl, H).
    split; [|split].
    + split; [intros H; contradiction|].
      intros (H1 & H2 & H3 & H4). destruct Hnil as [_ Hnil].
      assert (E' : d :: l = []).
      { apply Hnil. destruct b1, b2, b3, b4; tauto. }
      discriminate E'.
    + intros H. contradiction.
    + intros _. auto.
Qed.

(* ================================================================== *)
(** ** The reconciliation step of the route *)

Lemma ham_is_not_spam : str_eqb (lit "ham") (lit "spam") = false.
Proof. reflexivity. Qed.

Lemma spam_is_not_ham : str_eqb (lit "spam") (lit "ham") = false.
Proof. reflexivity. Qed.

Section Policy.
Variable U : Unicode.

Lemma reasons_are_emitted (message : str) (flagged reasons : list str) :
  explain_message U message = OK (flagged, reasons) ->
  flagged = insertion_order U message
  /\ forall r, In r reasons <-> emitted U message r.
Proof.
  rewrite explain_message_closed. intros H. injection H as <- <-.
  split; [reflexivity|]. intros r. apply emission_order_In.
Qed.

(** Without reasons there are no flagged terms: every check that flags a
    term gives a reason. *)
Lemma no_reason_no_term (message : str) (flagged : list str) :
  explain_message U message = OK (flagged, []) -> flagged = [].
Proof.
  rewrite explain_message_closed. intros H. injection H as <- H.
  rewrite emission_order_eq in H. rewrite insertion_order_eq.
  apply app_eq_nil in H. destruct H as [Hk H].
  apply app_eq_nil in H. destruct H as [Hu H].
  apply app_eq_nil in H. destruct H as [Hurl _].
  apply map_eq_nil in Hk, Hu. rewrite Hk, Hu.
  destruct (url_found U message); [discriminate Hurl | reflexivity].
Qed.

(** The guard of the division: the denominator is at least one. *)
Lemma caps_check_total (words_only : str) :
  exists b, caps_check U words_only = OK b.
Proof.
  unfold caps_check. destruct (truthy words_only); [|now exists false].
  unfold truediv.
  destruct (Z.eqb_spec (Z.max (len words_only) 1) 0) as [E | _]; [lia|].
  cbn [bind]. eexists. reflexivity.
Qed.

End Policy.

(** C7. On a ham verdict, when the analyzer flags a term the response's
    reasons are the disclaimer followed by the analyzer's reasons, none of
    which is the disclaimer; when it flags none, they are the analyzer's
    reasons unchanged. *)
Theorem C7_ham_disclaimer_first
    (U : Unicode) (C : Type) (message : str) (confidence : C)
    (flagged reasons : list str) :
  explain_message U message = OK (flagged, reasons) ->
  exists response,
    buildExplanation U message (lit "ham") confidence = OK response
    /\ suspicious_words response = flagged
    /\ ~ In ham_note reasons
    /\ (flagged <> [] -> explanation response = ham_note :: reasons)
    /\ (flagged = [] -> explanation response = reasons).
Proof.
  intros H. pose proof (reasons_are_emitted U _ _ _ H) as [_ Hr].
  unfold buildExplanation. rewrite H. cbn [bind]. cbv beta iota zeta.
  rewrite str_eqb_refl, ham_is_not_spam. cbn [andb].
  eexists. split; [reflexivity|]. cbn [suspicious_words explanation].
  split; [reflexivity|]. split.
  - rewrite Hr. apply ham_note_not_emitted.
  - destruct flagged; cbn [truthy]; split; congruence.
Qed.

Lemma C7_witness :
  exists flagged reasons response,
    explain_message ascii_db (lit "lunch is free today") = OK (flagged, reasons)
    /\ buildExplanation ascii_db (lit "lunch is free today") (lit "ham") 95%Z
       = OK response
    /\ explanation response = ham_note :: reasons.
Proof.
  assert (H : explain_message ascii_db (lit "lunch is free today")
              = OK ([lit "free"; lit "today"],
                    [keyword_reason (lit "free");
                     urgency_reason (lit "today")]))
    by (vm_compute; reflexivity).
  destruct (C7_ham_disclaimer_first ascii_db Z _ 95%Z _ _ H)
    as (response & Hb & _ & _ & Hf & _).
  exists [lit "free"; lit "today"],
    [keyword_reason (lit "free"); urgency_reason (lit "today")], response.
  split; [exact H|]. split; [exact Hb|]. apply Hf. discriminate.
Defined.

(** C8. On a spam verdict the response always has a reason: when the
    analyzer gave none, exactly the one about learned features; otherwise
    the analyzer's reasons unchanged. *)
Theorem C8_spam_never_without_reason
    (U : Unicode) (C : Type) (message : str) (confidence : C)
    (flagged reasons : list str) :
  explain_message U message = OK (flagged, reasons) ->
  exists response,
    buildExplanation U message (lit "spam") confidence = OK response
    /\ explanation response <> []
    /\ (reasons = [] -> explanation response = [ml_note])
    /\ (reasons <> [] -> explanation response = reasons).
Proof.
  intros H. unfold buildExplanation. rewrite H. cbn [bind].
  cbv beta iota zeta. rewrite str_eqb_refl, spam_is_not_ham. cbn [andb].
  eexists. split; [reflexivity|]. cbn [explanation].
  destruct reasons; cbn [truthy negb app].
  - repeat split; congruence.
  - repeat split; congruence.
Qed.

Lemma C8_witness :
  exists flagged response,
    explain_message ascii_db (lit "see you at noon") = OK (flagged, [])
    /\ buildExplanation ascii_db (lit "see you at noon") (lit "spam") 61%Z
       = OK response
    /\ explanation response = [ml_note].
Proof.
  assert (H : explain_message ascii_db (lit "see you at noon") = OK ([], []))
    by (vm_compute; reflexivity).
  destruct (C8_spam_never_without_reason ascii_db Z _ 61%Z _ _ H)
    as (response & Hb & _ & He & _).
  exists [], response.
  split; [exact H|]. split; [exact Hb|]. apply He. reflexivity.
Defined.

(** C9. The analyzer returns a pair of lists on every string, for every
    character database: the CAPS check never divides by zero, on any
    string.  The detector returns, for every string and verdict, a
    sequence of the five known descriptors; and the route's step returns a
    response. *)
Theorem C9_analyzer_and_detector_total (U : Unicode) (message : str) :
  (exists flagged reasons, explain_message U message = OK (flagged, reasons))
  /\ (forall words_only, exists b, caps_check U words_only = OK b)
  /\ (forall prediction,
        incl (detect_scammer_intent U message prediction) all_intents)
  /\ (forall (C : Type) (confidence : C) prediction,
        exists response,
          buildExplanation U message prediction confidence = OK response).
Proof.
  split; [|split; [|split]].
  - do 2 eexists. apply explain_message_closed.
  - apply caps_check_total.
  - intros prediction. destruct (str_eqb prediction (lit "spam")) eqn:E.
    + apply str_eqb_eq in E. subst prediction. rewrite detect_spam_closed.
      destruct (qualifying U message) as [|d l] eqn:Eq; cbn [truthy].
      * intros d [<- | []]. unfold all_intents. apply in_or_app.
        right. now left.
      * rewrite <- Eq. unfold qualifying.
        intros x Hx. apply in_fixed_order_shape in Hx.
        unfold all_intents. apply in_or_app. now left.
    + unfold detect_scammer_intent. rewrite E. intros d [].
  - intros C confidence prediction. unfold buildExplanation.
    rewrite explain_message_closed. cbn [bind]. eexists. reflexivity.
Qed.

(** C10. When the analyzer gives no reason it flags no term; hence a
    response on a spam verdict that carries the reason about learned
    features has no flagged term. *)
Theorem C10_no_reason_no_flagged_term
    (U : Unicode) (C : Type) (message : str) (confidence : C)
    (flagged reasons : list str) :
  explain_message U message = OK (flagged, reasons) ->
  (reasons = [] -> flagged = [])
  /\ (forall response,
        buildExplanation U message (lit "spam") confidence = OK response ->
        In ml_note (explanation response) ->
        suspicious_words response = []).
Proof.
  intros H. split.
  - intros ->. exact (no_reason_no_term U _ _ H).
  - pose proof (reasons_are_emitted U _ _ _ H) as [_ Hr].
    unfold buildExplanation. rewrite H. cbn [bind]. cbv beta iota zeta.
    rewrite str_eqb_refl, spam_is_not_ham. cbn [andb].
    intros response E. injection E as <-. cbn [suspicious_words explanation].
    destruct reasons as [|r rs]; cbn [truthy negb].
    + intros _. exact (no_reason_no_term U _ _ H).
    + intros Hin. apply Hr in Hin. now apply ml_note_not_emitted in Hin.
Qed.

Lemma C10_witness :
  explain_message ascii_db (lit "see you at noon") = OK ([], [])
  /\ (forall response,
        buildExplanation ascii_db (lit "see you at noon") (lit "spam") 61%Z
        = OK response ->
        In ml_note (explanation response) ->
        suspicious_words response = []).
Proof.
  assert (H : explain_message ascii_db (lit "see you at noon") = OK ([], []))
    by (vm_compute; reflexivity).
  split; [exact H|].
  exact (proj2 (C10_no_reason_no_flagged_term ascii_db Z _ 61%Z _ _ H)).
Defined.

(* ================================================================== *)
(** ** The functions on the scenarios of the specification

    All messages are ASCII, except the last, on whose characters
    [ascii_db] is still exact: the euro sign is neither upper case nor
    alphanumeric nor a space, and lowercasing leaves it alone. *)

Example scenario_prize_claim_terms :
  exists reasons,
    explain_message ascii_db
      (lit "WIN FREE CASH NOW!!! Click www.prize-claim.xyz")
    = OK (map lit ["free"; "win"; "click"; "now"; "prize"; "cash"; "claim";
                   "http"; "www"], reasons)
    /\ In url_reason reasons /\ In symbols_reason reasons
    /\ ~ In caps_reason reasons.
Proof.
  eexists. split; [vm_compute; reflexivity|].
  split; [|split].
  - apply in_list_In. vm_compute. reflexivity.
  - apply in_list_In. vm_compute. reflexivity.
  - apply in_list_false. vm_compute. reflexivity.
Qed.

Example scenario_prize_claim_intents :
  detect_scammer_intent ascii_db
    (lit "WIN FREE CASH NOW!!! Click www.prize-claim.xyz") (lit "spam")
  = [steal_money].
Proof. vm_compute. reflexivity. Qed.

Example scenario_lunch :
  explain_message ascii_db (lit "Hi, are we still meeting for lunch today?")
  = OK ([lit "today"], [urgency_reason (lit "today")])
  /\ detect_scammer_intent ascii_db
       (lit "Hi, are we still meeting for lunch today?") (lit "ham") = [].
Proof. split; vm_compute; reflexivity. Qed.

Example scenario_below_threshold :
  detect_scammer_intent ascii_db (lit "your prize needs a password")
    (lit "spam")
  = [deceptive_intent].
Proof. vm_compute. reflexivity. Qed.

Example scenario_substring_not_token :
  explain_message ascii_db (lit "lotteries reply urgently")
  = OK ([lit "urgent"], [urgency_reason (lit "urgent")]).
Proof. vm_compute. reflexivity. Qed.

Example edge_empty_message :
  explain_message ascii_db [] = OK ([], [])
  /\ detect_scammer_intent ascii_db [] (lit "spam") = [deceptive_intent].
Proof. split; vm_compute; reflexivity. Qed.

Example edge_symbols_only :
  explain_message ascii_db (lit "$$$ !!! 123") = OK ([], [symbols_reason]).
Proof. vm_compute. reflexivity. Qed.

Example edge_euro_signs :
  explain_message ascii_db [0x20AC; 0x20AC] = OK ([], [symbols_reason]).
Proof. vm_compute. reflexivity. Qed.

Example scenario_token_then_substring :
  explain_message ascii_db (lit "Act fast, knowing")
  = OK (map lit ["act"; "now"; "fast"],
        [keyword_reason (lit "act"); urgency_reason (lit "now");
         urgency_reason (lit "fast")]).
Proof. vm_compute. reflexivity. Qed.

(* ================================================================== *)
(** * Further properties of the code *)

(* ================================================================== *)
(** ** The tokens of [re.findall(r"\b\w+\b", ...)] *)

Section Tokens.
Variable U : Unicode.

Lemma word_runs_concat (cur s : str) :
  List.concat (Re.word_runs U cur s) = rev cur ++ filter (Re.is_word U) s.
Proof.
  revert cur; induction s as [|c s IH]; intros cur; simpl.
  - destruct cur; simpl; [reflexivity|]. now rewrite !app_nil_r.
  - destruct (Re.is_word U c).
    + rewrite IH. simpl. now rewrite <- app_assoc.
    + destruct cur as [|x cur]; simpl; now rewrite IH.
Qed.

Lemma delimited_after (c : N) (a t b : str) :
  Re.is_word U c = false -> delimited U a t b -> delimited U (c :: a) t b.
Proof.
  intros Hc [[-> | (a' & x & -> & Hx)] Hb]; split; try exact Hb; right.
  - exists [], c. now split.
  - exists (c :: a'), x. now split.
Qed.

(** Every token is a non-empty run of word characters standing in the
    string with no word character next to it. *)
Lemma word_runs_sound (cur s t : str) :
  forallb (Re.is_word U) cur = true ->
  In t (Re.word_runs U cur s) ->
  t <> [] /\ forallb (Re.is_word U) t = true
  /\ exists a b, rev cur ++ s = a ++ t ++ b /\ delimited U a t b.
Proof.
  assert (Hrev : forall x cur' : _, forallb (Re.is_word U) (x :: cur') = true ->
            rev (x :: cur') <> []
            /\ forallb (Re.is_word U) (rev (x :: cur')) = true).
  { intros x cur' H. split.
    - intros E. apply (f_equal (@rev N)) in E. rewrite rev_involutive in E.
      discriminate E.
    - rewrite forallb_forall in *. intros y Hy. apply H. now apply in_rev. }
  revert cur; induction s as [|c s IH]; intros cur Hcur Hin; simpl in Hin.
  - destruct cur as [|x cur]; [destruct Hin|].
    destruct Hin as [<- | []]. destruct (Hrev _ _ Hcur) as [H1 H2].
    split; [exact H1|]. split; [exact H2|].
    exists [], []. rewrite !app_nil_r. split; [reflexivity|].
    split; now left.
  - destruct (Re.is_word U c) eqn:Ec.
    + destruct (IH (c :: cur)) as (H1 & H2 & a & b & E & Hd).
      * simpl. now rewrite Ec.
      * exact Hin.
      * split; [exact H1|]. split; [exact H2|]. exists a, b.
        simpl in E. rewrite <- app_assoc in E. simpl in E. now split.
    + destruct cur as [|x cur].
      * destruct (IH [] eq_refl Hin) as (H1 & H2 & a & b & E & Hd).
        split; [exact H1|]. split; [exact H2|].
        exists (c :: a), b. simpl in *. rewrite E.
        split; [reflexivity|]. now apply delimited_after.
      * destruct Hin as [<- | Hin].
        -- destruct (Hrev _ _ Hcur) as [H1 H2].
           split; [exact H1|]. split; [exact H2|].
           exists [], (c :: s). split; [reflexivity|].
           split; [now left|]. right. now exists c, s.
        -- destruct (IH [] eq_refl Hin) as (H1 & H2 & a & b & E & Hd).
           split; [exact H1|]. split; [exact H2|].
           exists (rev (x :: cur) ++ c :: a), b. simpl in E. rewrite E.
           split; [now rewrite <- app_assoc|].
           destruct Hd as [Ha Hb]. split; [|exact Hb]. right.
           destruct Ha as [-> | (a' & y & -> & Hy)].
           ++ exists (rev (x :: cur)), c. now split.
           ++ exists (rev (x :: cur) ++ c :: a'), y.
              split; [|exact Hy]. now rewrite <- app_assoc.
Qed.

(** What comes after a character that is not a word character is
    tokenized on its own. *)
Lemma word_runs_after_gap (cur a rest : str) (c : N) (t : str) :
  Re.is_word U c = false ->
  In t (Re.word_runs U [] rest) ->
  In t (Re.word_runs U cur (a ++ c :: rest)).
Proof.
  intros Hc Hin. revert cur; induction a as [|x a IH]; intros cur; simpl.
  - rewrite Hc. destruct cur; [exact Hin | now right].
  - destruct (Re.is_word U x); [apply IH|].
    destruct cur; [apply IH | right; apply IH].
Qed.

(** A run of word characters that ends the string, or ends before a
    character that is not a word character, is a token together with the
    run being read. *)
Lemma word_runs_run (cur t b : str) :
  forallb (Re.is_word U) t = true ->
  rev cur ++ t <> [] ->
  (b = [] \/ exists c b', b = c :: b' /\ Re.is_word U c = false) ->
  In (rev cur ++ t) (Re.word_runs U cur (t ++ b)).
Proof.
  intros Ht Hne Hb. revert cur Hne; induction t as [|x t IH]; intros cur Hne.
  - rewrite app_nil_r in *. simpl.
    destruct Hb as [-> | (c & b' & -> & Hc)]; simpl.
    + destruct cur; [now contradiction Hne | now left].
    + rewrite Hc. destruct cur; [now contradiction Hne | now left].
  - simpl in Ht. apply andb_true_iff in Ht. destruct Ht as [Hx Ht].
    simpl. rewrite Hx.
    replace (rev cur ++ x :: t) with (rev (x :: cur) ++ t)
      by (simpl; now rewrite <- app_assoc).
    apply IH; [exact Ht|]. simpl. rewrite <- app_assoc. simpl.
    intros E. now apply app_eq_nil in E as [_ E].
Qed.

End Tokens.

(** X1. The tokens of a string are exactly its maximal runs of word
    characters: [t] is a token if and only if it is a non-empty string of
    word characters that stands somewhere in the string with no word
    character directly before or after it. *)
Theorem tokens_are_the_delimited_runs (U : Unicode) (s t : str) :
  In t (Re.findall_words U s)
  <-> t <> [] /\ forallb (Re.is_word U) t = true
      /\ exists a b, s = a ++ t ++ b /\ delimited U a t b.
Proof.
  unfold Re.findall_words. split.
  - intros Hin.
    destruct (word_runs_sound U [] s t eq_refl Hin)
      as (H1 & H2 & a & b & E & Hd).
    split; [exact H1|]. split; [exact H2|]. now exists a, b.
  - intros (Hne & Hw & a & b & -> & [Ha Hb]).
    assert (Hrun : In t (Re.word_runs U [] (t ++ b))).
    { apply (word_runs_run U [] t b Hw); [exact Hne | exact Hb]. }
    destruct Ha as [-> | (a' & c & -> & Hc)]; [exact Hrun|].
    rewrite <- app_assoc. simpl.
    now apply word_runs_after_gap.
Qed.

(** X2. Joining the tokens of a string gives its word characters, in
    order: the tokenizer drops the other characters and nothing else. *)
Theorem tokens_keep_the_word_characters (U : Unicode) (s : str) :
  List.concat (Re.findall_words U s) = filter (Re.is_word U) s.
Proof. unfold Re.findall_words. now rewrite word_runs_concat. Qed.

(* ================================================================== *)
(** ** More on the analyzer *)

Section AnalyzerMore.
Variable U : Unicode.

Lemma token_is_substring (s t : str) :
  In t (Re.findall_words U s) -> substring t s.
Proof.
  intros Hin.
  destruct (word_runs_sound U [] s t eq_refl Hin) as (_ & _ & a & b & E & _).
  now exists a, b.
Qed.

Lemma emitted_url (message : str) :
  emitted U message url_reason <-> url_found U message = true.
Proof.
  split.
  - intros [k _ E | w _ E | H _ | _ E | _ E]; try hd_clash E. exact H.
  - intros H. now apply by_url.
Qed.

Lemma emitted_symbols (message : str) :
  emitted U message symbols_reason <-> symbols_found U message = true.
Proof.
  split.
  - intros [k _ E | w _ E | _ E | H _ | _ E]; try hd_clash E. exact H.
  - intros H. now apply by_symbols.
Qed.

(** Which of the flagged terms are the URL markers. *)
Lemma marker_flagged (message x : str) :
  In x [lit "http"; lit "www"] ->
  (In x (insertion_order U message) <-> url_found U message = true).
Proof.
  intros Hx. pose proof (markers_fresh x Hx) as [Hs Hu].
  rewrite insertion_order_eq, !in_app_iff. split.
  - intros [H | [H | H]].
    + apply keyword_hits_In in H. destruct H as [H _]. contradiction.
    + apply urgency_hits_In in H. destruct H as [H _]. contradiction.
    + destruct (url_found U message); [reflexivity | destruct H].
  - intros ->. right. right. exact Hx.
Qed.

Lemma flagged_configured (message x : str) :
  In x (insertion_order U message) ->
  In x SPAM_KEYWORDS \/ In x URGENCY_WORDS \/ In x [lit "http"; lit "www"].
Proof.
  rewrite insertion_order_eq, !in_app_iff. intros [H | [H | H]].
  - left. apply keyword_hits_In in H. now destruct H.
  - right. left. apply urgency_hits_In in H. now destruct H.
  - right. right. destruct (url_found U message); [exact H | destruct H].
Qed.

End AnalyzerMore.

(** X3. Whether an urgency word ends up among the flagged terms depends
    only on its being a substring of the lowercased message: a word that is
    also a spam keyword and was flagged as a token is a substring too. *)
Theorem urgency_word_flagged_iff_substring
    (U : Unicode) (message w : str) (flagged reasons : list str) :
  explain_message U message = OK (flagged, reasons) ->
  In w URGENCY_WORDS ->
  (In w flagged <-> substring w (lower U message)).
Proof.
  rewrite explain_message_closed. intros H Hw. injection H as <- _.
  rewrite insertion_order_eq, !in_app_iff. split.
  - intros [H | [H | H]].
    + apply keyword_hits_In in H. destruct H as [_ H].
      now apply token_is_substring in H.
    + apply urgency_hits_In in H. now destruct H as (_ & H & _).
    + destruct (url_found U message); [|destruct H].
      apply markers_fresh in H. destruct H as [_ H]. contradiction.
  - intros Hs. destruct (in_list w (keyword_hits U message)) eqn:E.
    + left. now apply in_list_In.
    + right. left. apply urgency_hits_In. apply in_list_false in E.
      now repeat split.
Qed.

Lemma urgency_word_flagged_iff_substring_witness :
  In (lit "now") URGENCY_WORDS
  /\ exists flagged reasons,
       explain_message ascii_db (lit "Knowing you") = OK (flagged, reasons)
       /\ (In (lit "now") flagged
           <-> substring (lit "now") (lower ascii_db (lit "Knowing you"))).
Proof.
  assert (Hw : In (lit "now") URGENCY_WORDS)
    by (apply in_list_In; vm_compute; reflexivity).
  split; [exact Hw|]. do 2 eexists.
  assert (H : explain_message ascii_db (lit "Knowing you") = OK (_, _))
    by (vm_compute; reflexivity).
  split; [exact H|].
  exact (urgency_word_flagged_iff_substring _ _ _ _ _ H Hw).
Defined.

(** X4. No word gets both a keyword reason and an urgency reason: a word
    of both lists that was flagged as a keyword is skipped by the urgency
    scan. *)
Theorem never_both_reasons_for_a_word
    (U : Unicode) (message w : str) (flagged reasons : list str) :
  explain_message U message = OK (flagged, reasons) ->
  ~ (In (keyword_reason w) reasons /\ In (urgency_reason w) reasons).
Proof.
  rewrite explain_message_closed. intros H. injection H as _ <-.
  rewrite !emission_order_In, emitted_keyword, emitted_urgency.
  intros [Hk Hu]. apply urgency_hits_In in Hu.
  destruct Hu as (_ & _ & Hn). exact (Hn Hk).
Qed.

Lemma never_both_reasons_for_a_word_witness :
  exists flagged reasons,
    explain_message ascii_db (lit "act now") = OK (flagged, reasons)
    /\ ~ (In (keyword_reason (lit "now")) reasons
          /\ In (urgency_reason (lit "now")) reasons).
Proof.
  do 2 eexists.
  assert (H : explain_message ascii_db (lit "act now") = OK (_, _))
    by (vm_compute; reflexivity).
  split; [exact H|].
  exact (never_both_reasons_for_a_word _ _ (lit "now") _ _ H).
Defined.

(** X5. Every flagged term is a spam keyword, an urgency word or one of
    the two URL markers, and the two markers are flagged together, exactly
    when the URL reason is given: whether the message contains ["http"] or
    ["www"] plays no part. *)
Theorem flagged_terms_are_configured
    (U : Unicode) (message : str) (flagged reasons : list str) :
  explain_message U message = OK (flagged, reasons) ->
  (forall x, In x flagged ->
     In x SPAM_KEYWORDS \/ In x URGENCY_WORDS
     \/ In x [lit "http"; lit "www"])
  /\ (In (lit "http") flagged <-> In url_reason reasons)
  /\ (In (lit "www") flagged <-> In url_reason reasons).
Proof.
  rewrite explain_message_closed. intros H. injection H as <- <-.
  split; [intros x; apply flagged_configured|].
  rewrite emission_order_In, emitted_url.
  split; apply marker_flagged; [now left | right; now left].
Qed.

Lemma flagged_terms_are_configured_witness :
  exists flagged reasons,
    explain_message ascii_db (lit "see example.org") = OK (flagged, reasons)
    /\ (In (lit "http") flagged <-> In url_reason reasons).
Proof.
  do 2 eexists.
  assert (H : explain_message ascii_db (lit "see example.org") = OK (_, _))
    by (vm_compute; reflexivity).
  split; [exact H|].
  exact (proj1 (proj2 (flagged_terms_are_configured _ _ _ _ H))).
Defined.

(** X6. The analyzer finds nothing, no flagged term and no reason,
    exactly when no spam keyword is a token, no urgency word is a substring
    of the lowercased message, neither pattern matches, and the capitals
    are at most half of the letters and spaces. *)
Theorem nothing_found_iff_nothing_present
    (U : Unicode) (message : str) (flagged reasons : list str) :
  explain_message U message = OK (flagged, reasons) ->
  (flagged = [] /\ reasons = []
   <-> (forall k, In k SPAM_KEYWORDS -> ~ In k (tokens U message))
       /\ (forall w, In w URGENCY_WORDS ->
             ~ substring w (lower U message))
       /\ Re.search U true URL_PATTERN message = false
       /\ Re.search U false EXCESSIVE_SYMBOL_PATTERN message = false
       /\ (2 * len (filter ascii_upper message)
             <= len (filter letter_or_space message))%Z).
Proof.
  rewrite explain_message_closed. intros H. injection H as <- <-.
  fold (url_found U message). fold (symbols_found U message).
  rewrite <- Z.ltb_ge. fold (caps_excess message).
  rewrite insertion_order_eq, emission_order_eq. split.
  - intros [Hf Hr].
    apply app_eq_nil in Hf. destruct Hf as [Hk Hf].
    apply app_eq_nil in Hf. destruct Hf as [Hu Hf].
    apply app_eq_nil in Hr. destruct Hr as [_ Hr].
    apply app_eq_nil in Hr. destruct Hr as [_ Hr].
    apply app_eq_nil in Hr. destruct Hr as [_ Hr].
    apply app_eq_nil in Hr. destruct Hr as [Hs Hc].
    split; [|split; [|split; [|split]]].
    + intros k Hk1 Hk2.
      assert (Hin : In k (keyword_hits U message))
        by (apply keyword_hits_In; now split).
      rewrite Hk in Hin. destruct Hin.
    + intros w Hw1 Hw2.
      assert (Hin : In w (urgency_hits U message)).
      { apply urgency_hits_In. repeat split; try assumption.
        rewrite Hk. intros []. }
      rewrite Hu in Hin. destruct Hin.
    + destruct (url_found U message); [discriminate Hf | reflexivity].
    + destruct (symbols_found U message); [discriminate Hs | reflexivity].
    + destruct (caps_excess message); [discriminate Hc | reflexivity].
  - intros (Hk & Hu & -> & -> & ->).
    assert (Ek : keyword_hits U message = []).
    { destruct (keyword_hits U message) as [|k l] eqn:E; [reflexivity|].
      assert (Hin : In k (keyword_hits U message)) by (rewrite E; now left).
      apply keyword_hits_In in Hin. destruct Hin as [H1 H2].
      now destruct (Hk k H1). }
    assert (Eu : urgency_hits U message = []).
    { destruct (urgency_hits U message) as [|w l] eqn:E; [reflexivity|].
      assert (Hin : In w (urgency_hits U message)) by (rewrite E; now left).
      apply urgency_hits_In in Hin. destruct Hin as (H1 & H2 & _).
      now destruct (Hu w H1). }
    rewrite Ek, Eu. split; reflexivity.
Qed.

Lemma nothing_found_iff_nothing_present_witness :
  explain_message ascii_db (lit "see you at noon") = OK ([], [])
  /\ (forall k, In k SPAM_KEYWORDS ->
        ~ In k (tokens ascii_db (lit "see you at noon"))).
Proof.
  assert (H : explain_message ascii_db (lit "see you at noon") = OK ([], []))
    by (vm_compute; reflexivity).
  split; [exact H|].
  exact (proj1 (proj1 (nothing_found_iff_nothing_present _ _ _ _ H)
                  (conj eq_refl eq_refl))).
Defined.

(* ================================================================== *)
(** ** The two patterns *)

Section Patterns.
Variable U : Unicode.

Lemma rep_any (p : Re.cls) (prev : option N) (s : str) :
  Re.rep U p (fun _ _ => true) 0 prev s = true.
Proof. destruct s; reflexivity. Qed.

Lemma in_OneOf (l : list N) (c : N) :
  Re.in_cls U (Re.OneOf l) c = true <-> In c l.
Proof.
  simpl. rewrite existsb_exists. split.
  - intros (x & Hx & E). apply N.eqb_eq in E. now subst.
  - intros H. exists c. split; [exact H | apply N.eqb_refl].
Qed.

(** Two characters of the class, one after the other, at the front. *)
Lemma rep_twice (l : list N) (prev : option N) (s : str) :
  Re.rep U (Re.OneOf l) (fun _ _ => true) 2 prev s = true
  <-> exists c1 c2 b, s = c1 :: c2 :: b /\ In c1 l /\ In c2 l.
Proof.
  split.
  - destruct s as [|c1 [|c2 b]]; cbn [Re.rep pred orb];
      try (rewrite ?andb_false_r; discriminate).
    rewrite rep_any, andb_true_r. intros H.
    apply andb_true_iff in H. destruct H as [H1 H2].
    exists c1, c2, b. split; [reflexivity|].
    split; now apply in_OneOf.
  - intros (c1 & c2 & b & -> & H1 & H2). cbn [Re.rep pred orb].
    rewrite rep_any, andb_true_r. apply andb_true_iff.
    split; now apply in_OneOf.
Qed.

(** A search succeeds exactly when the pattern matches at some position. *)
Lemma search_from_matches (ic : bool) (r : Re.re) (prev : option N) (s : str) :
  Re.search_from U ic r prev s = true ->
  exists a b prev', s = a ++ b
                    /\ Re.matches U ic r (fun _ _ => true) prev' b = true.
Proof.
  revert prev; induction s as [|c s IH]; intros prev; simpl.
  - rewrite orb_false_r. intros H. now exists [], [], prev.
  - intros H. apply orb_true_iff in H. destruct H as [H | H].
    + now exists [], (c :: s), prev.
    + destruct (IH _ H) as (a & b & prev' & -> & Hm).
      now exists (c :: a), b, prev'.
Qed.

Lemma search_from_at (ic : bool) (r : Re.re) (prev : option N) (a b : str) :
  (forall prev', Re.matches U ic r (fun _ _ => true) prev' b = true) ->
  Re.search_from U ic r prev (a ++ b) = true.
Proof.
  intros Hm. revert prev; induction a as [|c a IH]; intros prev.
  - simpl. destruct b; simpl; rewrite Hm; reflexivity.
  - simpl. rewrite IH. apply orb_true_r.
Qed.

Lemma symbols_found_iff (message : str) :
  symbols_found U message = true
  <-> exists a c1 c2 b, message = a ++ c1 :: c2 :: b
                        /\ In c1 symbol_characters
                        /\ In c2 symbol_characters.
Proof.
  unfold symbols_found, Re.search. split.
  - intros H. apply search_from_matches in H.
    destruct H as (a & b & prev' & -> & Hm).
    apply (rep_twice symbol_characters) in Hm.
    destruct Hm as (c1 & c2 & b' & -> & H1 & H2). now exists a, c1, c2, b'.
  - intros (a & c1 & c2 & b & -> & H1 & H2). apply search_from_at.
    intros prev'. apply (rep_twice symbol_characters).
    now exists c1, c2, b.
Qed.

End Patterns.

(** X7. The symbols reason is given exactly when two characters among
    [! £ $ € @ # % & *] stand next to each other in the message: symbols
    apart from each other, however many, give no reason. *)
Theorem symbols_reason_iff_two_adjacent
    (U : Unicode) (message : str) (flagged reasons : list str) :
  explain_message U message = OK (flagged, reasons) ->
  (In symbols_reason reasons
   <-> exists a c1 c2 b, message = a ++ c1 :: c2 :: b
                         /\ In c1 symbol_characters
                         /\ In c2 symbol_characters).
Proof.
  rewrite explain_message_closed. intros H. injection H as _ <-.
  rewrite emission_order_In, emitted_symbols. apply symbols_found_iff.
Qed.

Lemma symbols_reason_iff_two_adjacent_witness :
  exists flagged reasons,
    explain_message ascii_db (lit "a! b! c$ d# e%") = OK (flagged, reasons)
    /\ (In symbols_reason reasons
        <-> exists a c1 c2 b, lit "a! b! c$ d# e%" = a ++ c1 :: c2 :: b
                              /\ In c1 symbol_characters
                              /\ In c2 symbol_characters).
Proof.
  do 2 eexists.
  assert (H : explain_message ascii_db (lit "a! b! c$ d# e%") = OK (_, _))
    by (vm_compute; reflexivity).
  split; [exact H|].
  exact (symbols_reason_iff_two_adjacent _ _ _ _ H).
Defined.

Section UrlPattern.
Variable U : Unicode.

Lemma rep_reaches (p : Re.cls) (k : option N -> str -> bool)
    (n : nat) (prev : option N) (s : str) :
  Re.rep U p k n prev s = true ->
  exists a b prev', s = a ++ b /\ k prev' b = true.
Proof.
  revert n prev; induction s as [|c s IH]; intros n prev H.
  - destruct n; simpl in H; [|discriminate H].
    rewrite orb_false_r in H. now exists [], [], prev.
  - simpl in H. apply orb_true_iff in H. destruct H as [H | H].
    + destruct n; [|discriminate H]. now exists [], (c :: s), prev.
    + apply andb_true_iff in H. destruct H as [_ H].
      destruct (IH _ _ H) as (a & b & prev' & -> & Hk).
      now exists (c :: a), b, prev'.
Qed.

(** A match hands a rest of the string over to what follows. *)
Lemma matches_reaches (ic : bool) (r : Re.re) :
  forall (k : option N -> str -> bool) (prev : option N) (s : str),
    Re.matches U ic r k prev s = true ->
    exists a b prev', s = a ++ b /\ k prev' b = true.
Proof.
  induction r as [|c|p|r1 IH1 r2 IH2|r1 IH1 r2 IH2|r1 IH1|n p|];
    intros k prev s H; simpl in H.
  - now exists [], s, prev.
  - destruct s as [|x s]; [discriminate H|].
    apply andb_true_iff in H. destruct H as [_ H].
    now exists [x], s, (Some x).
  - destruct s as [|x s]; [discriminate H|].
    apply andb_true_iff in H. destruct H as [_ H].
    now exists [x], s, (Some x).
  - destruct (IH1 _ _ _ H) as (a & b & prev' & -> & H').
    destruct (IH2 _ _ _ H') as (a' & b' & prev'' & -> & H'').
    exists (a ++ a'), b', prev''. now rewrite <- app_assoc.
  - apply orb_true_iff in H. destruct H as [H | H]; eauto.
  - apply orb_true_iff in H. destruct H as [H | H]; [eauto|].
    now exists [], s, prev.
  - now apply rep_reaches in H.
  - apply andb_true_iff in H. destruct H as [_ H]. now exists [], s, prev.
Qed.

(** A literal character that is not a letter matches itself only. *)
Lemma not_letter_matches (ic : bool) (c x : N) :
  ascii_lower c = false -> Re.chr_matches ic c x = true -> x = c.
Proof.
  unfold Re.chr_matches. intros ->.
  rewrite andb_false_r, andb_false_l, orb_false_r. apply N.eqb_eq.
Qed.

(** Every match of the URL pattern reads a colon or a dot. *)
Lemma url_match_reads (k : option N -> str -> bool)
    (prev : option N) (s : str) :
  Re.matches U true URL_PATTERN k prev s = true -> In 58 s \/ In 46 s.
Proof.
  unfold URL_PATTERN. cbn [Re.matches]. intros H.
  apply orb_true_iff in H. destruct H as [H | H];
    [|apply orb_true_iff in H; destruct H as [H | H]].
  - left. apply matches_reaches in H.
    destruct H as (a & b & prev' & -> & H).
    apply orb_true_iff in H.
    assert (H' : exists a' b' p', b = a' ++ b'
               /\ Re.matches U true (Re.Str (lit "://"))
                    (Re.rep U Re.NotSpace k 1) p' b' = true).
    { destruct H as [H | H].
      - destruct b as [|x b]; [discriminate H|].
        apply andb_true_iff in H. destruct H as [_ H].
        now exists [x], b, (Some x).
      - now exists [], b, prev'. }
    destruct H' as (a' & b' & p' & -> & H').
    change (Re.Str (lit "://")) with (Re.Chr 58 @@ Re.Chr 47 @@ Re.Chr 47)
      in H'.
    cbn [Re.matches] in H'. destruct b' as [|x b']; [discriminate H'|].
    apply andb_true_iff in H'. destruct H' as [Hx _].
    apply not_letter_matches in Hx; [|reflexivity]. subst x.
    apply in_or_app. right. apply in_or_app. right. now left.
  - right. apply matches_reaches in H.
    destruct H as (a & b & prev' & -> & H).
    destruct b as [|x b]; [discriminate H|].
    apply andb_true_iff in H. destruct H as [Hx _].
    apply not_letter_matches in Hx; [|reflexivity]. subst x.
    apply in_or_app. right. now left.
  - right. apply andb_true_iff in H. destruct H as [_ H].
    apply rep_reaches in H. destruct H as (a & b & prev' & -> & H).
    destruct b as [|x b]; [discriminate H|].
    apply andb_true_iff in H. destruct H as [Hx _].
    apply not_letter_matches in Hx; [|reflexivity]. subst x.
    apply in_or_app. right. now left.
Qed.

Lemma url_found_reads (message : str) :
  url_found U message = true -> In 58 message \/ In 46 message.
Proof.
  unfold url_found, Re.search. intros H. apply search_from_matches in H.
  destruct H as (a & b & prev' & -> & H). apply url_match_reads in H.
  destruct H as [H | H]; [left | right]; apply in_or_app; now right.
Qed.

(** A specific descriptor is among the intents of a spam verdict exactly
    when its category qualifies. *)
Lemma specific_in_detect (message : str) (d : IntentDescriptor) :
  In d specific_intents ->
  (In d (detect_scammer_intent U message (lit "spam"))
   <-> In d (qualifying U message)).
Proof.
  intros Hd. rewrite detect_spam_closed.
  destruct (qualifying U message) eqn:E; cbn [truthy]; [|tauto].
  destruct descriptors_differ as (_ & _ & _ & _ & _ & _ & D7).
  split; [intros [<- | []]; contradiction | intros []].
Qed.

Lemma malware_needs_url (message prediction : str) :
  In install_malware (detect_scammer_intent U message prediction) ->
  url_found U message = true.
Proof.
  destruct (str_eqb prediction (lit "spam")) eqn:E.
  - apply str_eqb_eq in E. subst prediction.
    rewrite specific_in_detect
      by (unfold specific_intents; cbn; auto).
    unfold qualifying. rewrite in_fixed_order_In.
    destruct descriptors_differ as (D1 & D2 & D3 & D4 & D5 & D6 & _).
    intros [[_ H] | [[_ H] | [[_ H] | [H _]]]];
      try (symmetry in H; contradiction).
    now apply andb_true_iff in H.
  - unfold detect_scammer_intent. rewrite E. intros [].
Qed.

End UrlPattern.

(** X8. A message with neither a dot nor a colon has no URL for the code:
    no URL reason, no URL marker among the flagged terms, and no malware
    intent, whatever the verdict. *)
Theorem no_dot_no_colon_no_url
    (U : Unicode) (message prediction : str) (flagged reasons : list str) :
  explain_message U message = OK (flagged, reasons) ->
  ~ In 46 message -> ~ In 58 message ->
  ~ In url_reason reasons
  /\ ~ In (lit "http") flagged /\ ~ In (lit "www") flagged
  /\ ~ In install_malware (detect_scammer_intent U message prediction).
Proof.
  rewrite explain_message_closed. intros H Hdot Hcolon.
  injection H as <- <-.
  assert (Hno : url_found U message <> true).
  { intros H. apply url_found_reads in H. tauto. }
  rewrite emission_order_In, emitted_url.
  rewrite !marker_flagged by (cbn; auto).
  repeat split; try exact Hno.
  intros H. now apply malware_needs_url in H.
Qed.

Lemma no_dot_no_colon_no_url_witness :
  exists flagged reasons,
    explain_message ascii_db (lit "click the link, download the file")
    = OK (flagged, reasons)
    /\ ~ In install_malware
         (detect_scammer_intent ascii_db
            (lit "click the link, download the file") (lit "spam")).
Proof.
  do 2 eexists.
  assert (H : explain_message ascii_db
                (lit "click the link, download the file") = OK (_, _))
    by (vm_compute; reflexivity).
  split; [exact H|].
  refine (proj2 (proj2 (proj2
    (no_dot_no_colon_no_url _ _ (lit "spam") _ _ H _ _)))).
  - vm_compute. intuition discriminate.
  - vm_compute. intuition discriminate.
Defined.

Section UrlSchemes.
Variable U : Unicode.

(** Under IGNORECASE a literal matches a character it is the lowercase
    of. *)
Lemma lower_matches (c x : N) :
  ascii_to_lower x = c -> Re.chr_matches true c x = true.
Proof.
  unfold ascii_to_lower, Re.chr_matches. destruct (ascii_upper x) eqn:E.
  - intros <-. unfold ascii_upper in E. apply andb_true_iff in E.
    destruct E as [E1 E2]. apply N.leb_le in E1, E2.
    assert (Hl : ascii_lower (x + 32) = true).
    { unfold ascii_lower. apply andb_true_iff.
      split; apply N.leb_le; lia. }
    assert (Hx : (x =? x + 32 - 32) = true) by (apply N.eqb_eq; lia).
    rewrite Hl, Hx. cbn. apply orb_true_r.
  - intros <-. now rewrite N.eqb_refl.
Qed.

Lemma not_space_then_rest (c : N) (b : str) (prev : option N) :
  isspace U c = false ->
  Re.rep U Re.NotSpace (fun _ _ => true) 1 prev (c :: b) = true.
Proof.
  intros Hc. cbn [Re.rep pred orb Re.in_cls]. now rewrite Hc, rep_any.
Qed.

Lemma url_at_scheme (prev : option N) (u : str) (c : N) (b : str) :
  In (map ascii_to_lower u) [lit "http://"; lit "https://"; lit "www."] ->
  isspace U c = false ->
  Re.matches U true URL_PATTERN (fun _ _ => true) prev (u ++ c :: b) = true.
Proof.
  intros Hu Hc.
  pose proof (fun p => not_space_then_rest c b p Hc) as Hrest.
  unfold URL_PATTERN.
  change (Re.Str (lit "http"))
    with (Re.Chr 104 @@ Re.Chr 116 @@ Re.Chr 116 @@ Re.Chr 112).
  change (Re.Str (lit "://")) with (Re.Chr 58 @@ Re.Chr 47 @@ Re.Chr 47).
  change (Re.Str (lit "www")) with (Re.Chr 119 @@ Re.Chr 119 @@ Re.Chr 119).
  destruct Hu as [Hu | [Hu | [Hu | []]]].
  - change (lit "http://") with [104; 116; 116; 112; 58; 47; 47] in Hu.
    do 8 (destruct u as [|? u]; try discriminate Hu).
    injection Hu as H1 H2 H3 H4 H5 H6 H7.
    cbn [Re.matches app]. apply orb_true_iff. left.
    rewrite (lower_matches _ _ (eq_sym H1)), (lower_matches _ _ (eq_sym H2)),
      (lower_matches _ _ (eq_sym H3)), (lower_matches _ _ (eq_sym H4)),
      (lower_matches _ _ (eq_sym H5)), (lower_matches _ _ (eq_sym H6)),
      (lower_matches _ _ (eq_sym H7)).
    cbn [andb]. rewrite Hrest. apply orb_true_r.
  - change (lit "https://") with [104; 116; 116; 112; 115; 58; 47; 47] in Hu.
    do 9 (destruct u as [|? u]; try discriminate Hu).
    injection Hu as H1 H2 H3 H4 H5 H6 H7 H8.
    cbn [Re.matches app]. apply orb_true_iff. left.
    rewrite (lower_matches _ _ (eq_sym H1)), (lower_matches _ _ (eq_sym H2)),
      (lower_matches _ _ (eq_sym H3)), (lower_matches _ _ (eq_sym H4)),
      (lower_matches _ _ (eq_sym H5)), (lower_matches _ _ (eq_sym H6)),
      (lower_matches _ _ (eq_sym H7)), (lower_matches _ _ (eq_sym H8)).
    cbn [andb]. now rewrite Hrest.
  - change (lit "www.") with [119; 119; 119; 46] in Hu.
    do 5 (destruct u as [|? u]; try discriminate Hu).
    injection Hu as H1 H2 H3 H4.
    cbn [Re.matches app]. apply orb_true_iff. right.
    apply orb_true_iff. left.
    rewrite (lower_matches _ _ (eq_sym H1)), (lower_matches _ _ (eq_sym H2)),
      (lower_matches _ _ (eq_sym H3)), (lower_matches _ _ (eq_sym H4)).
    cbn [andb]. apply Hrest.
Qed.

End UrlSchemes.

(** X9. Whenever ["http://"], ["https://"] or ["www."], in any mix of
    upper and lower case, is followed in the message by a character that
    is not whitespace, the URL reason is given and both markers are
    flagged. *)
Theorem scheme_is_always_a_url
    (U : Unicode) (a u : str) (c : N) (b : str)
    (flagged reasons : list str) :
  explain_message U (a ++ u ++ c :: b) = OK (flagged, reasons) ->
  In (map ascii_to_lower u) [lit "http://"; lit "https://"; lit "www."] ->
  isspace U c = false ->
  In url_reason reasons
  /\ In (lit "http") flagged /\ In (lit "www") flagged.
Proof.
  rewrite explain_message_closed. intros H Hu Hc. injection H as <- <-.
  assert (Hurl : url_found U (a ++ u ++ c :: b) = true).
  { unfold url_found, Re.search. apply search_from_at.
    intros prev'. now apply url_at_scheme. }
  rewrite emission_order_In, emitted_url.
  rewrite !marker_flagged by (cbn; auto). auto.
Qed.

Lemma scheme_is_always_a_url_witness :
  exists flagged reasons,
    explain_message ascii_db (lit "go to " ++ lit "HTTPS://" ++ 120 :: [])
    = OK (flagged, reasons)
    /\ In url_reason reasons.
Proof.
  do 2 eexists.
  assert (H : explain_message ascii_db
                (lit "go to " ++ lit "HTTPS://" ++ 120 :: []) = OK (_, _))
    by (vm_compute; reflexivity).
  split; [exact H|].
  refine (proj1 (scheme_is_always_a_url _ _ _ _ _ _ _ H _ _)).
  - right. left. vm_compute. reflexivity.
  - reflexivity.
Defined.

(* ================================================================== *)
(** ** More on the intent detector *)

Section IntentsMore.
Variable U : Unicode.

Lemma substring_trans (p q s : str) :
  substring p q -> substring q s -> substring p s.
Proof.
  intros (a & b & ->) (a' & b' & ->). exists (a' ++ a), (b ++ b').
  now rewrite <- !app_assoc.
Qed.

(** A term that contains another term of the same list counts for two. *)
Lemma nested_terms_qualify (keywords : list str) (w1 w2 : str)
    (message : str) :
  NoDup keywords ->
  in_list w1 keywords = true -> in_list w2 keywords = true ->
  str_eqb w1 w2 = false -> in_str w1 w2 = true ->
  substring w2 (lower U message) ->
  qualifies U keywords message = true.
Proof.
  intros ND H1 H2 Hne Hin Hs. apply qualifies_two_terms; [exact ND|].
  exists w1, w2. apply in_list_In in H1, H2. apply in_str_substring in Hin.
  repeat split; try assumption.
  - intros E. apply str_eqb_eq in E. congruence.
  - now apply substring_trans with w2.
Qed.

Lemma qualifying_In (message : str) (d : IntentDescriptor) :
  In d (qualifying U message)
  <-> (qualifies U MONEY_THEFT_KEYWORDS message = true /\ d = steal_money)
      \/ (qualifies U DATA_THEFT_KEYWORDS message = true /\ d = steal_data)
      \/ (qualifies U PANIC_KEYWORDS message = true /\ d = create_panic)
      \/ (qualifies U MALWARE_KEYWORDS message && url_found U message = true
          /\ d = install_malware).
Proof. unfold qualifying. apply in_fixed_order_In. Qed.

End IntentsMore.

(** X10. One word can reach the threshold of two matches: a term that
    contains another term of its list counts for both.  On a spam verdict
    a lowercased message containing ["winner"] or ["payment"] gets the
    money-theft intent, ["social security"] the data-theft intent,
    ["suspended"] or ["fraudulent"] the panic intent, and
    ["security update"] together with a URL the malware intent. *)
Theorem one_word_can_qualify (U : Unicode) (message w : str) :
  substring w (lower U message) ->
  let intents := detect_scammer_intent U message (lit "spam") in
  (In w [lit "winner"; lit "payment"] -> In steal_money intents)
  /\ (w = lit "social security" -> In steal_data intents)
  /\ (In w [lit "suspended"; lit "fraudulent"] -> In create_panic intents)
  /\ (w = lit "security update" ->
      Re.search U true URL_PATTERN message = true ->
      In install_malware intents).
Proof.
  intros Hs. cbv zeta.
  rewrite !specific_in_detect by (unfold specific_intents; cbn; auto).
  rewrite !qualifying_In. repeat split.
  - intros [<- | [<- | []]]; left; (split; [|reflexivity]).
    + apply (nested_terms_qualify U _ (lit "win") (lit "winner"));
        solve [apply MONEY_THEFT_KEYWORDS_NoDup | reflexivity | exact Hs].
    + apply (nested_terms_qualify U _ (lit "pay") (lit "payment"));
        solve [apply MONEY_THEFT_KEYWORDS_NoDup | reflexivity | exact Hs].
  - intros ->. right; left. split; [|reflexivity].
    apply (nested_terms_qualify U _ (lit "security") (lit "social security"));
      solve [apply DATA_THEFT_KEYWORDS_NoDup | reflexivity | exact Hs].
  - intros [<- | [<- | []]]; right; right; left; (split; [|reflexivity]).
    + apply (nested_terms_qualify U _ (lit "suspend") (lit "suspended"));
        solve [apply PANIC_KEYWORDS_NoDup | reflexivity | exact Hs].
    + apply (nested_terms_qualify U _ (lit "fraud") (lit "fraudulent"));
        solve [apply PANIC_KEYWORDS_NoDup | reflexivity | exact Hs].
  - intros -> Hurl. right; right; right. split; [|reflexivity].
    apply andb_true_iff. split; [|exact Hurl].
    apply (nested_terms_qualify U _ (lit "update") (lit "security update"));
      solve [apply MALWARE_KEYWORDS_NoDup | reflexivity | exact Hs].
Qed.

Lemma one_word_can_qualify_witness :
  substring (lit "winner") (lower ascii_db (lit "You are our WINNER!"))
  /\ In steal_money
       (detect_scammer_intent ascii_db (lit "You are our WINNER!")
          (lit "spam")).
Proof.
  assert (H : substring (lit "winner")
                (lower ascii_db (lit "You are our WINNER!")))
    by (apply in_str_substring; vm_compute; reflexivity).
  split; [exact H|].
  apply (proj1 (one_word_can_qualify ascii_db _ _ H)). now left.
Defined.

(** X11. The malware intent never comes without the URL reason: when the
    detector reports it, the analyzer of the same message gives the URL
    reason and flags both markers. *)
Theorem malware_intent_comes_with_url_reason
    (U : Unicode) (message prediction : str) (flagged reasons : list str) :
  explain_message U message = OK (flagged, reasons) ->
  In install_malware (detect_scammer_intent U message prediction) ->
  In url_reason reasons
  /\ In (lit "http") flagged /\ In (lit "www") flagged.
Proof.
  rewrite explain_message_closed. intros H Hm. injection H as <- <-.
  apply malware_needs_url in Hm.
  rewrite emission_order_In, emitted_url.
  rewrite !marker_flagged by (cbn; auto). auto.
Qed.

Lemma malware_intent_comes_with_url_reason_witness :
  exists flagged reasons,
    explain_message ascii_db (lit "download the file at x.biz")
    = OK (flagged, reasons)
    /\ In install_malware
         (detect_scammer_intent ascii_db (lit "download the file at x.biz")
            (lit "spam"))
    /\ In url_reason reasons.
Proof.
  do 2 eexists.
  assert (H : explain_message ascii_db (lit "download the file at x.biz")
              = OK (_, _))
    by (vm_compute; reflexivity).
  assert (Hm : In install_malware
                 (detect_scammer_intent ascii_db
                    (lit "download the file at x.biz") (lit "spam")))
    by (vm_compute; auto).
  split; [exact H|]. split; [exact Hm|].
  exact (proj1 (malware_intent_comes_with_url_reason _ _ _ _ _ H Hm)).
Defined.

(* ================================================================== *)
(** ** More on the reconciliation step *)

Lemma notes_differ : ham_note <> ml_note.
Proof. intros H. hd_clash H. Qed.

(** X12. For any label of the classifier: the response carries the
    disclaimer exactly when the label is ham and a term is flagged, the
    note on learned features exactly when the label is spam and the
    analyzer gave no reason, never both; every reason of the analyzer is
    kept, and under any other label the reasons are passed on
    unchanged. *)
Theorem notes_follow_the_verdict
    (U : Unicode) (C : Type) (message prediction : str) (confidence : C)
    (flagged reasons : list str) :
  explain_message U message = OK (flagged, reasons) ->
  exists response,
    buildExplanation U message prediction confidence = OK response
    /\ (In ham_note (explanation response)
        <-> prediction = lit "ham" /\ flagged <> [])
    /\ (In ml_note (explanation response)
        <-> prediction = lit "spam" /\ reasons = [])
    /\ ~ (In ham_note (explanation response)
          /\ In ml_note (explanation response))
    /\ incl reasons (explanation response)
    /\ (prediction <> lit "ham" -> prediction <> lit "spam" ->
        explanation response = reasons).
Proof.
  intros H. pose proof (reasons_are_emitted U _ _ _ H) as [_ Hr].
  assert (Hh : ~ In ham_note reasons)
    by (rewrite Hr; apply ham_note_not_emitted).
  assert (Hm : ~ In ml_note reasons)
    by (rewrite Hr; apply ml_note_not_emitted).
  pose proof notes_differ as Hd.
  unfold buildExplanation. rewrite H. cbn [bind]. cbv beta iota zeta.
  eexists. split; [reflexivity|]. cbn [explanation].
  destruct (str_eqb prediction (lit "ham")) eqn:Eh;
    destruct (str_eqb prediction (lit "spam")) eqn:Es.
  - apply str_eqb_eq in Eh, Es. subst prediction. discriminate Es.
  - apply str_eqb_eq in Eh. subst prediction. cbn [andb].
    assert (Ns : lit "ham" <> lit "spam") by discriminate.
    destruct flagged as [|x flagged]; cbn [truthy].
    + split; [|split; [|split; [|split]]].
      * split; [intros Hin; contradiction | intros [_ Hne]; now elim Hne].
      * split; [intros Hin; contradiction | intros [E _]; contradiction].
      * intros [Hin _]. contradiction.
      * apply incl_refl.
      * reflexivity.
    + split; [|split; [|split; [|split]]].
      * split; [intros _; split; [reflexivity | discriminate]
               | intros _; now left].
      * split; [|intros [E _]; contradiction].
        intros [E | Hin]; [now apply Hd in E | contradiction].
      * intros [_ [E | Hin]]; [now apply Hd in E | contradiction].
      * apply incl_tl, incl_refl.
      * intros Hne. now elim Hne.
  - apply str_eqb_eq in Es. subst prediction. cbn [andb].
    assert (Ns : lit "spam" <> lit "ham") by discriminate.
    destruct reasons as [|r reasons]; cbn [truthy negb app].
    + split; [|split; [|split; [|split]]].
      * split; [|intros [E _]; contradiction].
        intros [E | []]. symmetry in E. now apply Hd in E.
      * split; [intros _; now split | intros _; now left].
      * intros [[E | []] _]. symmetry in E. now apply Hd in E.
      * apply incl_nil_l.
      * intros _ Hne. now elim Hne.
    + split; [|split; [|split; [|split]]].
      * split; [intros Hin; contradiction | intros [E _]; contradiction].
      * split; [intros Hin; contradiction | intros [_ E]; discriminate E].
      * intros [Hin _]. contradiction.
      * apply incl_refl.
      * reflexivity.
  - cbn [andb].
    assert (Nh : prediction <> lit "ham")
      by (intros E; apply str_eqb_eq in E; congruence).
    assert (Ns : prediction <> lit "spam")
      by (intros E; apply str_eqb_eq in E; congruence).
    split; [|split; [|split; [|split]]].
    + split; [intros Hin; contradiction | intros [E _]; contradiction].
    + split; [intros Hin; contradiction | intros [E _]; contradiction].
    + intros [Hin _]. contradiction.
    + apply incl_refl.
    + reflexivity.
Qed.

Lemma notes_follow_the_verdict_witness :
  exists flagged reasons response,
    explain_message ascii_db (lit "HELLO!!!") = OK (flagged, reasons)
    /\ buildExplanation ascii_db (lit "HELLO!!!") (lit "ham") 80%Z
       = OK response
    /\ (In ham_note (explanation response)
        <-> lit "ham" = lit "ham" /\ flagged <> []).
Proof.
  assert (H : explain_message ascii_db (lit "HELLO!!!")
              = OK ([], [symbols_reason; caps_reason]))
    by (vm_compute; reflexivity).
  destruct (notes_follow_the_verdict ascii_db Z _ (lit "ham") 80%Z _ _ H)
    as (response & Hb & Hh & _).
  exists [], [symbols_reason; caps_reason], response.
  split; [exact H|]. split; [exact Hb | exact Hh].
Defined.

(* ================================================================== *)
(** ** [str.strip] *)

Section Strip.
Variable U : Unicode.

Lemma lstrip_nil_iff (s : str) :
  lstrip U s = [] <-> forallb (isspace U) s = true.
Proof.
  induction s as [|c s IH]; simpl; [tauto|].
  destruct (isspace U c); simpl; [exact IH|].
  split; discriminate.
Qed.

Lemma lstrip_head (s : str) (c : N) (r : str) :
  lstrip U s = c :: r -> isspace U c = false.
Proof.
  induction s as [|x s IH]; simpl; [discriminate|].
  destruct (isspace U x) eqn:E; [exact IH|].
  intros H. injection H as <- _. exact E.
Qed.

Lemma lstrip_idem (s : str) : lstrip U (lstrip U s) = lstrip U s.
Proof.
  induction s as [|x s IH]; simpl; [reflexivity|].
  destruct (isspace U x) eqn:E; [exact IH|]. simpl. now rewrite E.
Qed.

Lemma lstrip_split (s : str) :
  exists a, s = a ++ lstrip U s /\ forallb (isspace U) a = true.
Proof.
  induction s as [|x s (a & E & Ha)]; simpl; [now exists []|].
  destruct (isspace U x) eqn:Ex; [|now exists []].
  exists (x :: a). simpl. rewrite Ex, Ha. split; [now f_equal | reflexivity].
Qed.

Lemma lstrip_keeps_end (a : str) (c : N) :
  isspace U c = false -> lstrip U (a ++ [c]) = lstrip U a ++ [c].
Proof.
  intros Hc. induction a as [|x a IH]; simpl; [now rewrite Hc|].
  destruct (isspace U x); [exact IH | reflexivity].
Qed.

Lemma strip_cons (s : str) (c : N) (r : str) :
  lstrip U s = c :: r -> strip U s = c :: rstrip U r.
Proof.
  intros E. unfold strip, rstrip. rewrite E. simpl.
  rewrite lstrip_keeps_end by (eapply lstrip_head; exact E).
  now rewrite rev_app_distr.
Qed.

Lemma strip_nil_iff (s : str) :
  strip U s = [] <-> forallb (isspace U) s = true.
Proof.
  rewrite <- lstrip_nil_iff. destruct (lstrip U s) as [|c r] eqn:E.
  - unfold strip. rewrite E. split; reflexivity.
  - rewrite (strip_cons _ _ _ E). split; discriminate.
Qed.

Lemma rstrip_idem (s : str) : rstrip U (rstrip U s) = rstrip U s.
Proof. unfold rstrip. now rewrite rev_involutive, lstrip_idem. Qed.

Lemma strip_idem (s : str) : strip U (strip U s) = strip U s.
Proof.
  destruct (lstrip U s) as [|c r] eqn:E.
  - assert (H : strip U s = [])
      by (apply strip_nil_iff, lstrip_nil_iff; exact E).
    rewrite H. reflexivity.
  - rewrite (strip_cons _ _ _ E).
    assert (E' : lstrip U (c :: rstrip U r) = c :: rstrip U r)
      by (simpl; now rewrite (lstrip_head _ _ _ E)).
    now rewrite (strip_cons _ _ _ E'), rstrip_idem.
Qed.

(** The stripped string stands in the string between two runs of
    whitespace, and neither begins nor ends with whitespace. *)
Lemma strip_split (s : str) :
  exists a b, s = a ++ strip U s ++ b
              /\ forallb (isspace U) a = true
              /\ forallb (isspace U) b = true.
Proof.
  destruct (lstrip_split s) as (a & Ea & Ha).
  destruct (lstrip_split (rev (lstrip U s))) as (b & Eb & Hb).
  exists a, (rev b). split; [|split; [exact Ha|]].
  - unfold strip, rstrip. rewrite <- rev_app_distr, <- Eb, rev_involutive.
    exact Ea.
  - rewrite forallb_forall in *. intros x Hx. apply Hb. now apply in_rev.
Qed.

Lemma strip_ends (s : str) :
  (forall c r, strip U s = c :: r -> isspace U c = false)
  /\ (forall r c, strip U s = r ++ [c] -> isspace U c = false).
Proof.
  split.
  - intros c r H. destruct (lstrip U s) as [|x t] eqn:E.
    + unfold strip in H. rewrite E in H. discriminate H.
    + rewrite (strip_cons _ _ _ E) in H. injection H as <- _.
      eapply lstrip_head. exact E.
  - intros r c H. unfold strip, rstrip in H.
    apply (f_equal (@rev N)) in H.
    rewrite rev_involutive, rev_app_distr in H. simpl in H.
    eapply lstrip_head. exact H.
Qed.

End Strip.

(* ================================================================== *)
(** ** The [/predict] route *)

Lemma is_message_key_iff (v : json) :
  is_message_key v = true <-> v = JStr (lit "message").
Proof.
  destruct v; simpl; try (split; discriminate).
  rewrite str_eqb_eq. split; [now intros -> | intros H; now injection H].
Qed.

Lemma has_message_key (l : list json) :
  existsb is_message_key l = true <-> In (JStr (lit "message")) l.
Proof.
  rewrite existsb_exists. split.
  - intros (v & Hv & E). apply is_message_key_iff in E. now subst.
  - intros H. exists (JStr (lit "message")). split; [exact H|].
    now apply is_message_key_iff.
Qed.

(** The fields of the response. *)
Lemma buildExplanation_fields (U : Unicode) (C : Type)
    (message verdict : str) (percentage : C) (response : Response C) :
  buildExplanation U message verdict percentage = OK response ->
  prediction response = verdict
  /\ confidence response = percentage
  /\ explain_message U message
     = OK (suspicious_words response, emission_order U message)
  /\ scammer_intent response
     = detect_scammer_intent U message verdict
  /\ incl (emission_order U message) (explanation response)
  /\ (verdict = lit "spam" -> explanation response <> []).
Proof.
  unfold buildExplanation. rewrite explain_message_closed. cbn [bind].
  cbv beta iota zeta. intros E. injection E as <-.
  cbn [prediction confidence suspicious_words explanation scammer_intent].
  split; [reflexivity|]. split; [reflexivity|]. split; [reflexivity|].
  split; [reflexivity|]. split.
  - destruct (str_eqb verdict (lit "ham")
              && truthy (insertion_order U message)).
    + destruct (str_eqb verdict (lit "spam")
                && negb (truthy (ham_note :: emission_order U message))).
      * apply incl_appl, incl_tl, incl_refl.
      * apply incl_tl, incl_refl.
    + destruct (str_eqb verdict (lit "spam")
                && negb (truthy (emission_order U message))).
      * apply incl_appl, incl_refl.
      * apply incl_refl.
  - intros ->. rewrite spam_is_not_ham, str_eqb_refl. cbn [andb].
    destruct (emission_order U message); cbn [truthy negb app]; discriminate.
Qed.

Lemma detect_nonempty_iff (U : Unicode) (message prediction : str) :
  detect_scammer_intent U message prediction <> []
  <-> prediction = lit "spam".
Proof.
  destruct (str_eqb prediction (lit "spam")) eqn:E.
  - apply str_eqb_eq in E. subst prediction. split; [reflexivity|].
    intros _. rewrite detect_spam_closed.
    destruct (qualifying U message); cbn [truthy]; discriminate.
  - unfold detect_scammer_intent. rewrite E. cbn [negb]. split.
    + intros H. now elim H.
    + intros H. apply str_eqb_eq in H. congruence.
Qed.

(** A label has a probability exactly when it is one of the classes
    paired with the probabilities. *)
Lemma prob_dict_get_None {P : Type} (prediction : str) (classes : list str)
    (probabilities : list P) :
  prob_dict_get prediction classes probabilities = None
  <-> ~ In prediction (map fst (combine classes probabilities)).
Proof.
  revert probabilities; induction classes as [|c cs IH];
    intros [|p ps]; simpl; try tauto.
  destruct (prob_dict_get prediction cs ps) eqn:E.
  - split; [discriminate|]. intros Hn. exfalso.
    destruct (IH ps) as [_ IH2].
    rewrite IH2 in E by tauto. discriminate E.
  - apply IH in E. destruct (str_eqb c prediction) eqn:Ec.
    + apply str_eqb_eq in Ec. split; [discriminate | tauto].
    + split; [|reflexivity]. intros _ [Hc | Hin]; [|contradiction].
      apply str_eqb_eq in Hc. congruence.
Qed.

Section RouteFacts.
Variable U : Unicode.
Variables Vec P C : Type.
Variable vectorizer_transform : str -> Vec.
Variable model_predict : Vec -> str.
Variable model_predict_proba : Vec -> list P.
Variable model_classes : list str.
Variable percent : P -> C.

Let route : json -> outcome (reply C) :=
  predict U vectorizer_transform model_predict model_predict_proba
    model_classes percent.

(** The label of a message and its probability in the dict of the
    classes. *)
Let label (message : str) : str :=
  model_predict (vectorizer_transform message).

Let probability (message : str) : option P :=
  prob_dict_get (label message) model_classes
    (model_predict_proba (vectorizer_transform message)).

Lemma buildExplanation_returns (message prediction : str) (confidence : C) :
  exists response,
    buildExplanation U message prediction confidence = OK response.
Proof.
  unfold buildExplanation. rewrite explain_message_closed. cbn [bind].
  eexists. reflexivity.
Qed.

(** What the route does with a message that is not blank. *)
Lemma route_on_text (items : list (str * json)) (s : str) :
  dict_get (lit "message") items = Some (JStr s) ->
  strip U s <> [] ->
  route (JDict items)
  = match probability (strip U s) with
    | None => Raised KeyError
    | Some p =>
        match buildExplanation U (strip U s) (label (strip U s))
                (percent p) with
        | OK response => Done (ok_200 response)
        | Raise e => Raised (InAnalyzer e)
        end
    end.
Proof.
  intros Hget Hne. unfold route, predict, probability, label.
  destruct items as [|i items]; [discriminate Hget|].
  cbn [json_truthy truthy negb contains_message getitem_message and_then].
  rewrite Hget. cbn [negb strip_method and_then].
  destruct (strip U s) as [|c m] eqn:E; [now elim Hne|]. reflexivity.
Qed.

(** The route on every kind of payload. *)
Lemma route_cases (data : json) :
  match data with
  | JNull | JBool false =>
      route data = Done (error_400 (lit "No message provided"))
  | JBool true => route data = Raised TypeError
  | JNum q =>
      route data
      = if Qeq_bool q 0 then Done (error_400 (lit "No message provided"))
        else Raised TypeError
  | JStr s =>
      route data
      = if in_str (lit "message") s then Raised TypeError
        else Done (error_400 (lit "No message provided"))
  | JList l =>
      route data
      = if existsb is_message_key l then Raised TypeError
        else Done (error_400 (lit "No message provided"))
  | JDict items =>
      match dict_get (lit "message") items with
      | None => route data = Done (error_400 (lit "No message provided"))
      | Some (JStr s) =>
          (strip U s = []
           /\ route data = Done (error_400 (lit "Message is empty")))
          \/ (strip U s <> []
              /\ ((probability (strip U s) = None
                   /\ route data = Raised KeyError)
                  \/ exists response,
                       probability (strip U s) <> None
                       /\ route data = Done (ok_200 response)))
      | Some _ => route data = Raised AttributeError
      end
  end.
Proof.
  destruct data as [|b|q|s|l|items].
  - reflexivity.
  - destruct b; reflexivity.
  - unfold route, predict. cbn [json_truthy]. rewrite negb_involutive.
    destruct (Qeq_bool q 0); reflexivity.
  - unfold route, predict. cbn [json_truthy contains_message and_then].
    destruct s as [|c s]; [reflexivity|]. cbn [truthy negb].
    destruct (in_str (lit "message") (c :: s)); reflexivity.
  - unfold route, predict. cbn [json_truthy contains_message and_then].
    destruct l as [|v l]; [reflexivity|]. cbn [truthy negb].
    destruct (existsb is_message_key (v :: l)); reflexivity.
  - destruct (dict_get (lit "message") items) as [v|] eqn:Hget.
    + assert (Hv : (forall s, v <> JStr s) ->
                   route (JDict items) = Raised AttributeError).
      { intros Hs. unfold route, predict.
        destruct items as [|i items]; [discriminate Hget|].
        cbn [json_truthy truthy negb contains_message getitem_message
             and_then].
        rewrite Hget. cbn [negb and_then].
        destruct v; try reflexivity. now elim (Hs s). }
      destruct v as [|b|q|s|l|d]; try (apply Hv; intros s; discriminate).
      destruct (strip U s) as [|c m] eqn:E.
      * left. split; [reflexivity|]. unfold route, predict.
        destruct items as [|i items]; [discriminate Hget|].
        cbn [json_truthy truthy negb contains_message getitem_message
             and_then].
        rewrite Hget. cbn [negb strip_method and_then]. now rewrite E.
      * right. split; [discriminate|]. rewrite <- E.
        rewrite (route_on_text items s Hget) by (rewrite E; discriminate).
        destruct (probability (strip U s)) as [p|]; [right | now left].
        destruct (buildExplanation_returns (strip U s) (label (strip U s))
                    (percent p)) as [response Hb].
        exists response. rewrite Hb. split; [discriminate | reflexivity].
    + unfold route, predict.
      destruct items as [|i items]; [reflexivity|].
      cbn [json_truthy truthy negb contains_message and_then].
      now rewrite Hget.
Qed.

End RouteFacts.

Section RouteTheorems.
Variable U : Unicode.
Variables Vec P C : Type.
Variable vectorizer_transform : str -> Vec.
Variable model_predict : Vec -> str.
Variable model_predict_proba : Vec -> list P.
Variable model_classes : list str.
Variable percent : P -> C.

Let route : json -> outcome (reply C) :=
  predict U vectorizer_transform model_predict model_predict_proba
    model_classes percent.

Let label (message : str) : str :=
  model_predict (vectorizer_transform message).

Let probability (message : str) : option P :=
  prob_dict_get (label message) model_classes
    (model_predict_proba (vectorizer_transform message)).

Let cases (data : json) :=
  route_cases U Vec P C vectorizer_transform model_predict
    model_predict_proba model_classes percent data.

Lemma probability_None (message : str) :
  probability message = None
  <-> ~ In (label message)
          (map fst (combine model_classes
                      (model_predict_proba (vectorizer_transform message)))).
Proof. apply prob_dict_get_None. Qed.

Ltac by_cases data H :=
  pose proof (cases data) as H; cbv zeta in H;
  fold route in H; fold label in H; fold probability in H.

(** X13. The route answers 400 "No message provided" exactly for: null,
    false, zero, a string not containing ["message"], a list without the
    element ["message"], and a dict without the key ["message"] (the empty
    string, list and dict among them). *)
Theorem no_message_provided_iff (data : json) :
  route data = Done (error_400 (lit "No message provided"))
  <-> data = JNull \/ data = JBool false
      \/ (exists q, data = JNum q /\ Qeq q 0)
      \/ (exists s, data = JStr s /\ ~ substring (lit "message") s)
      \/ (exists l, data = JList l /\ ~ In (JStr (lit "message")) l)
      \/ (exists items, data = JDict items
                        /\ dict_get (lit "message") items = None).
Proof.
  by_cases data H.
  destruct data as [|b|q|s|l|items].
  - split; [now left | intros _; exact H].
  - destruct b; rewrite H.
    + split; [discriminate|].
      intros [E | [E | [(? & E & _) | [(? & E & _) | [(? & E & _)
                | (? & E & _)]]]]]; discriminate E.
    + split; [right; now left | reflexivity].
  - rewrite H. destruct (Qeq_bool q 0) eqn:E.
    + split; [|reflexivity]. intros _. right; right; left.
      exists q. split; [reflexivity | now apply Qeq_bool_iff].
    + split; [discriminate|].
      intros [E' | [E' | [(q' & E' & Hq) | [(? & E' & _) | [(? & E' & _)
                 | (? & E' & _)]]]]]; try discriminate E'.
      injection E' as <-. apply Qeq_bool_iff in Hq. congruence.
  - rewrite H. destruct (in_str (lit "message") s) eqn:E.
    + split; [discriminate|]. apply in_str_substring in E.
      intros [E' | [E' | [(? & E' & _) | [(s' & E' & Hs) | [(? & E' & _)
                 | (? & E' & _)]]]]]; try discriminate E'.
      injection E' as <-. contradiction.
    + split; [|reflexivity]. intros _. right; right; right; left.
      exists s. split; [reflexivity|]. rewrite <- in_str_substring.
      congruence.
  - rewrite H. destruct (existsb is_message_key l) eqn:E.
    + split; [discriminate|]. apply has_message_key in E.
      intros [E' | [E' | [(? & E' & _) | [(? & E' & _) | [(l' & E' & Hl)
                 | (? & E' & _)]]]]]; try discriminate E'.
      injection E' as <-. contradiction.
    + split; [|reflexivity]. intros _. right; right; right; right; left.
      exists l. split; [reflexivity|]. rewrite <- has_message_key.
      congruence.
  - destruct (dict_get (lit "message") items) as [v|] eqn:Hget.
    + split.
      * intros Hr. exfalso. destruct v as [|b|q|s|l|d];
          try (rewrite H in Hr; discriminate Hr).
        destruct H as [[_ H] | [_ [[_ H] | (r & _ & H)]]];
          rewrite H in Hr; discriminate Hr.
      * intros [E | [E | [(? & E & _) | [(? & E & _) | [(? & E & _)
                | (i & E & Hi)]]]]]; try discriminate E.
        injection E as <-. congruence.
    + split; [|intros _; exact H]. intros _.
      right; right; right; right; right. now exists items.
Qed.

(** X14. The route answers 400 "Message is empty" exactly for a dict whose
    ["message"] is a string of whitespace only, the empty string among
    them. *)
Theorem message_is_empty_iff (data : json) :
  route data = Done (error_400 (lit "Message is empty"))
  <-> exists items s, data = JDict items
                      /\ dict_get (lit "message") items = Some (JStr s)
                      /\ forallb (isspace U) s = true.
Proof.
  by_cases data H.
  destruct data as [|b|q|s|l|items];
    try (split; [|intros (? & ? & E & _); discriminate E]).
  - rewrite H. discriminate.
  - destruct b; rewrite H; discriminate.
  - rewrite H. destruct (Qeq_bool q 0); discriminate.
  - rewrite H. destruct (in_str (lit "message") s); discriminate.
  - rewrite H. destruct (existsb is_message_key l); discriminate.
  - destruct (dict_get (lit "message") items) as [v|] eqn:Hget.
    + destruct v as [|b|q|s|l|d];
        try (split; [rewrite H; discriminate
                    | intros (? & ? & E & E' & _); injection E as <-;
                      rewrite Hget in E'; discriminate E']).
      split.
      * intros Hr. exists items, s. split; [reflexivity|].
        split; [exact Hget|]. apply strip_nil_iff.
        destruct H as [[H _] | [_ [[_ H] | (r & _ & H)]]];
          [exact H | rewrite H in Hr; discriminate Hr
           | rewrite H in Hr; discriminate Hr].
      * intros (i & s' & E & E' & Hs). injection E as <-.
        rewrite Hget in E'. injection E' as <-.
        apply strip_nil_iff in Hs.
        destruct H as [[_ H] | [Hne _]]; [exact H | contradiction].
    + split; [rewrite H; discriminate|].
      intros (? & ? & E & E' & _). injection E as <-.
      rewrite Hget in E'. discriminate E'.
Qed.

(** X15. A payload of the wrong shape is not refused but makes the view
    raise: [TypeError] for true, a number other than zero, a string
    containing ["message"] and a list with the element ["message"];
    [AttributeError] for a dict whose ["message"] is not a string. *)
Theorem wrong_shape_raises (data : json) :
  (route data = Raised TypeError
   <-> data = JBool true
       \/ (exists q, data = JNum q /\ ~ Qeq q 0)
       \/ (exists s, data = JStr s /\ substring (lit "message") s)
       \/ (exists l, data = JList l /\ In (JStr (lit "message")) l))
  /\ (route data = Raised AttributeError
      <-> exists items v, data = JDict items
                          /\ dict_get (lit "message") items = Some v
                          /\ forall s, v <> JStr s).
Proof.
  by_cases data H.
  destruct data as [|b|q|s|l|items].
  - rewrite H. split; (split; [discriminate|]).
    + intros [E | [(? & E & _) | [(? & E & _) | (? & E & _)]]];
        discriminate E.
    + intros (? & ? & E & _). discriminate E.
  - split; [|split; [destruct b; rewrite H; discriminate
                    | intros (? & ? & E & _); discriminate E]].
    destruct b; rewrite H.
    + split; [now left | reflexivity].
    + split; [discriminate|].
      intros [E | [(? & E & _) | [(? & E & _) | (? & E & _)]]];
        discriminate E.
  - split; [|split; [rewrite H; destruct (Qeq_bool q 0); discriminate
                    | intros (? & ? & E & _); discriminate E]].
    rewrite H. destruct (Qeq_bool q 0) eqn:E.
    + split; [discriminate|]. apply Qeq_bool_iff in E.
      intros [E' | [(q' & E' & Hq) | [(? & E' & _) | (? & E' & _)]]];
        try discriminate E'.
      injection E' as <-. contradiction.
    + split; [|reflexivity]. intros _. right; left. exists q.
      split; [reflexivity|]. intros Hq. apply Qeq_bool_iff in Hq.
      congruence.
  - split; [|split; [rewrite H; destruct (in_str (lit "message") s);
                     discriminate
                    | intros (? & ? & E & _); discriminate E]].
    rewrite H. destruct (in_str (lit "message") s) eqn:E.
    + split; [|reflexivity]. intros _. right; right; left. exists s.
      split; [reflexivity | now apply in_str_substring].
    + split; [discriminate|].
      intros [E' | [(? & E' & _) | [(s' & E' & Hs) | (? & E' & _)]]];
        try discriminate E'.
      injection E' as <-. apply in_str_substring in Hs. congruence.
  - split; [|split; [rewrite H; destruct (existsb is_message_key l);
                     discriminate
                    | intros (? & ? & E & _); discriminate E]].
    rewrite H. destruct (existsb is_message_key l) eqn:E.
    + split; [|reflexivity]. intros _. right; right; right. exists l.
      split; [reflexivity | now apply has_message_key].
    + split; [discriminate|].
      intros [E' | [(? & E' & _) | [(? & E' & _) | (l' & E' & Hl)]]];
        try discriminate E'.
      injection E' as <-. apply has_message_key in Hl. congruence.
  - assert (Hnot : ~ (JDict items = JBool true
                 \/ (exists q, JDict items = JNum q /\ ~ Qeq q 0)
                 \/ (exists s, JDict items = JStr s
                               /\ substring (lit "message") s)
                 \/ (exists l, JDict items = JList l
                               /\ In (JStr (lit "message")) l))).
    { intros [E | [(? & E & _) | [(? & E & _) | (? & E & _)]]];
        discriminate E. }
    destruct (dict_get (lit "message") items) as [v|] eqn:Hget.
    + assert (Hattr : (forall s, v <> JStr s) ->
                exists items0 v0, JDict items = JDict items0
                  /\ dict_get (lit "message") items0 = Some v0
                  /\ forall s, v0 <> JStr s)
        by (intros Hs; now exists items, v).
      destruct v as [|b|q|s|l|d];
        try (rewrite H; split;
             [split; [discriminate | intros H'; now elim Hnot]
             | split; [intros _; apply Hattr; intros; discriminate
                      | reflexivity]]).
      assert (Hstr : ~ exists items0 v0, JDict items = JDict items0
                  /\ dict_get (lit "message") items0 = Some v0
                  /\ forall s0, v0 <> JStr s0).
      { intros (i & v & E & E' & Hs). injection E as <-.
        rewrite Hget in E'. injection E' as <-. now elim (Hs s). }
      destruct H as [[_ H] | [_ [[_ H] | (r & _ & H)]]]; rewrite H;
        (split; split; try discriminate; intros H'; contradiction).
    + rewrite H. split; (split; [discriminate|]).
      * intros H'. contradiction.
      * intros (i & v & E & E' & _). injection E as <-.
        rewrite Hget in E'. discriminate E'.
Qed.

(** X16. No error of the analyzer reaches the route, on any payload; the
    only other error is [KeyError], raised exactly when the message is a
    string that is not blank and the label the model predicts is not one
    of the classes paired with its probabilities. *)
Theorem route_raises_only_on_unknown_label (data : json) :
  (forall e, route data <> Raised (InAnalyzer e))
  /\ (route data = Raised KeyError
      <-> exists items s,
            data = JDict items
            /\ dict_get (lit "message") items = Some (JStr s)
            /\ strip U s <> []
            /\ ~ In (label (strip U s))
                    (map fst (combine model_classes
                                (model_predict_proba
                                   (vectorizer_transform (strip U s)))))).
Proof.
  by_cases data H.
  destruct data as [|b|q|s|l|items];
    try (split; [intros e | split; [|intros (? & ? & E & _); discriminate E]]).
  - rewrite H. discriminate.
  - rewrite H. discriminate.
  - destruct b; rewrite H; discriminate.
  - destruct b; rewrite H; discriminate.
  - rewrite H. destruct (Qeq_bool q 0); discriminate.
  - rewrite H. destruct (Qeq_bool q 0); discriminate.
  - rewrite H. destruct (in_str (lit "message") s); discriminate.
  - rewrite H. destruct (in_str (lit "message") s); discriminate.
  - rewrite H. destruct (existsb is_message_key l); discriminate.
  - rewrite H. destruct (existsb is_message_key l); discriminate.
  - destruct (dict_get (lit "message") items) as [v|] eqn:Hget.
    + assert (Hother : (forall s, v <> JStr s) ->
                ~ exists items0 s0, JDict items = JDict items0
                   /\ dict_get (lit "message") items0 = Some (JStr s0)
                   /\ strip U s0 <> []
                   /\ ~ In (label (strip U s0))
                           (map fst (combine model_classes
                              (model_predict_proba
                                 (vectorizer_transform (strip U s0)))))).
      { intros Hs (i & s0 & E & E' & _). injection E as <-.
        rewrite Hget in E'. injection E' as ->. now elim (Hs s0). }
      destruct v as [|b|q|s|l|d];
        try (rewrite H; split;
             [discriminate
             | split; [discriminate
                      | intros H'; elim Hother;
                        [intros; discriminate | exact H']]]).
      destruct H as [[Hs H] | [Hs [[Hp H] | (r & Hp & H)]]]; rewrite H.
      * split; [discriminate|]. split; [discriminate|].
        intros (i & s0 & E & E' & Hne & _). injection E as <-.
        rewrite Hget in E'. injection E' as <-. contradiction.
      * split; [discriminate|]. split; [|reflexivity]. intros _.
        exists items, s. split; [reflexivity|]. split; [exact Hget|].
        split; [exact Hs|]. now apply probability_None.
      * split; [discriminate|]. split; [discriminate|].
        intros (i & s0 & E & E' & _ & Hin). injection E as <-.
        rewrite Hget in E'. injection E' as <-.
        apply probability_None in Hin. contradiction.
    + rewrite H. split; [discriminate|]. split; [discriminate|].
      intros (i & s0 & E & E' & _). injection E as <-.
      rewrite Hget in E'. discriminate E'.
Qed.

(** X17. The route answers 200 exactly for a dict whose ["message"] is a
    string with a character that is not whitespace, provided the label of
    the stripped message is one of the classes paired with the
    probabilities. *)
Theorem ok_200_iff (data : json) :
  (exists response, route data = Done (ok_200 response))
  <-> exists items s,
        data = JDict items
        /\ dict_get (lit "message") items = Some (JStr s)
        /\ forallb (isspace U) s = false
        /\ In (label (strip U s))
              (map fst (combine model_classes
                          (model_predict_proba
                             (vectorizer_transform (strip U s))))).
Proof.
  by_cases data H.
  destruct data as [|b|q|s|l|items];
    try (split; [intros [r Hr] | intros (? & ? & E & _); discriminate E]).
  - rewrite H in Hr. discriminate Hr.
  - destruct b; rewrite H in Hr; discriminate Hr.
  - rewrite H in Hr. destruct (Qeq_bool q 0); discriminate Hr.
  - rewrite H in Hr. destruct (in_str (lit "message") s); discriminate Hr.
  - rewrite H in Hr. destruct (existsb is_message_key l); discriminate Hr.
  - assert (Hblank : forall s, strip U s <> []
                               <-> forallb (isspace U) s = false).
    { intros s. rewrite strip_nil_iff.
      destruct (forallb (isspace U) s); split; congruence. }
    destruct (dict_get (lit "message") items) as [v|] eqn:Hget.
    + destruct v as [|b|q|s|l|d];
        try (split; [intros [r Hr]; rewrite H in Hr; discriminate Hr
                    | intros (? & ? & E & E' & _); injection E as <-;
                      rewrite Hget in E'; discriminate E']).
      split.
      * intros [r Hr]. exists items, s. split; [reflexivity|].
        split; [exact Hget|].
        destruct H as [[_ H] | [Hs [[_ H] | (r' & Hp & H)]]];
          try (rewrite H in Hr; discriminate Hr).
        split; [now apply Hblank|].
        destruct (in_list (label (strip U s))
                    (map fst (combine model_classes
                       (model_predict_proba
                          (vectorizer_transform (strip U s)))))) eqn:E.
        -- now apply in_list_In.
        -- apply in_list_false in E. apply probability_None in E.
           contradiction.
      * intros (i & s0 & E & E' & Hs & Hin). injection E as <-.
        rewrite Hget in E'. injection E' as <-. apply Hblank in Hs.
        destruct H as [[Hs' _] | [_ [[Hp _] | (r' & _ & H)]]].
        -- contradiction.
        -- apply probability_None in Hp. contradiction.
        -- now exists r'.
    + split; [intros [r Hr]; rewrite H in Hr; discriminate Hr|].
      intros (? & ? & E & E' & _). injection E as <-.
      rewrite Hget in E'. discriminate E'.
Qed.


Lemma route_on_blank (items : list (str * json)) (s : str) :
  dict_get (lit "message") items = Some (JStr s) ->
  strip U s = [] ->
  route (JDict items) = Done (error_400 (lit "Message is empty")).
Proof.
  intros Hget Hs. by_cases (JDict items) H. cbv beta iota in H.
  rewrite Hget in H.
  destruct H as [[_ H] | [Hne _]]; [exact H | contradiction].
Qed.

Lemma route_on_nonblank (items : list (str * json)) (s : str) :
  dict_get (lit "message") items = Some (JStr s) ->
  strip U s <> [] ->
  route (JDict items)
  = match probability (strip U s) with
    | None => Raised KeyError
    | Some p =>
        match buildExplanation U (strip U s) (label (strip U s))
                (percent p) with
        | OK response => Done (ok_200 response)
        | Raise e => Raised (InAnalyzer e)
        end
    end.
Proof.
  exact (route_on_text U Vec P C vectorizer_transform model_predict
           model_predict_proba model_classes percent items s).
Qed.

(** X18. A 200 reply is about the stripped message, which is not empty
    and neither begins nor ends with whitespace: its label is the model's
    for that message, its confidence the percentage of that label's
    probability, its flagged terms and reasons the analyzer's (with the
    notes added), its intents the detector's, which are there exactly
    when the label is spam; and on spam the explanation is not empty. *)
Theorem ok_200_content (data : json) (response : Response C) :
  route data = Done (ok_200 response) ->
  exists items s p reasons,
    data = JDict items
    /\ dict_get (lit "message") items = Some (JStr s)
    /\ (exists a b, s = a ++ strip U s ++ b
                    /\ forallb (isspace U) a = true
                    /\ forallb (isspace U) b = true)
    /\ (exists c m, strip U s = c :: m /\ isspace U c = false)
    /\ (exists m c, strip U s = m ++ [c] /\ isspace U c = false)
    /\ probability (strip U s) = Some p
    /\ prediction response = label (strip U s)
    /\ confidence response = percent p
    /\ explain_message U (strip U s)
       = OK (suspicious_words response, reasons)
    /\ incl reasons (explanation response)
    /\ scammer_intent response
       = detect_scammer_intent U (strip U s) (label (strip U s))
    /\ (scammer_intent response <> [] <-> label (strip U s) = lit "spam")
    /\ (label (strip U s) = lit "spam" -> explanation response <> []).
Proof.
  intros Hr. by_cases data H.
  destruct data as [|b|q|s|l|items].
  - rewrite H in Hr. discriminate Hr.
  - destruct b; rewrite H in Hr; discriminate Hr.
  - rewrite H in Hr. destruct (Qeq_bool q 0); discriminate Hr.
  - rewrite H in Hr. destruct (in_str (lit "message") s); discriminate Hr.
  - rewrite H in Hr. destruct (existsb is_message_key l); discriminate Hr.
  - destruct (dict_get (lit "message") items) as [v|] eqn:Hget;
      [|rewrite H in Hr; discriminate Hr].
    destruct v as [|b|q|s|l|d]; try (rewrite H in Hr; discriminate Hr).
    destruct H as [[_ H] | [Hne _]]; [rewrite H in Hr; discriminate Hr|].
    rewrite (route_on_nonblank items s Hget Hne) in Hr.
    destruct (probability (strip U s)) as [p|] eqn:Hp;
      [|discriminate Hr].
    destruct (buildExplanation U (strip U s) (label (strip U s))
                (percent p)) as [r|e] eqn:Hb; [|discriminate Hr].
    injection Hr as ->.
    apply buildExplanation_fields in Hb.
    destruct Hb as (F1 & F2 & F3 & F4 & F5 & F6).
    exists items, s, p, (emission_order U (strip U s)).
    split; [reflexivity|]. split; [exact Hget|].
    split; [apply strip_split|].
    destruct (strip_ends U s) as [Hfirst Hlast]. split; [|split].
    + destruct (strip U s) as [|c m] eqn:E; [now elim Hne|].
      exists c, m. split; [reflexivity|]. now apply (Hfirst c m).
    + destruct (rev (strip U s)) as [|c m] eqn:E.
      * apply (f_equal (@rev N)) in E. rewrite rev_involutive in E.
        simpl in E. contradiction.
      * apply (f_equal (@rev N)) in E. rewrite rev_involutive in E.
        simpl in E. exists (rev m), c. split; [exact E|].
        now apply (Hlast (rev m) c).
    + split; [exact Hp|]. split; [exact F1|]. split; [exact F2|].
      split; [exact F3|]. split; [exact F5|]. split; [exact F4|].
      split; [|exact F6]. rewrite F4. apply detect_nonempty_iff.
Qed.

(** X19. The whitespace around the message plays no part: the route
    answers a dict as it answers the dict holding only the stripped
    message. *)
Theorem surrounding_whitespace_is_ignored
    (items : list (str * json)) (s : str) :
  dict_get (lit "message") items = Some (JStr s) ->
  route (JDict items)
  = route (JDict [(lit "message", JStr (strip U s))]).
Proof.
  intros Hget.
  assert (Hget' : dict_get (lit "message")
                    [(lit "message", JStr (strip U s))]
                  = Some (JStr (strip U s)))
    by (cbn [dict_get]; now rewrite str_eqb_refl).
  destruct (strip U s) as [|c m] eqn:E.
  - rewrite (route_on_blank items s Hget E).
    now rewrite (route_on_blank _ _ Hget' eq_refl).
  - rewrite <- E in *.
    assert (Hne : strip U s <> []) by (rewrite E; discriminate).
    rewrite (route_on_nonblank items s Hget Hne).
    rewrite (route_on_nonblank _ _ Hget')
      by (now rewrite strip_idem).
    now rewrite strip_idem.
Qed.


End RouteTheorems.

Lemma ok_200_content_witness :
  exists response items s,
    demo_route
      (JDict [(lit "lang", JStr (lit "en"));
              (lit "message", JStr (lit "  Claim your prize now  "))])
    = Done (ok_200 response)
    /\ dict_get (lit "message") items = Some (JStr s)
    /\ prediction response
       = (if in_str (lit "prize") (strip ascii_db s) then lit "spam"
          else lit "ham").
Proof.
  assert (H : exists response,
            demo_route
              (JDict [(lit "lang", JStr (lit "en"));
                      (lit "message",
                       JStr (lit "  Claim your prize now  "))])
            = Done (ok_200 response))
    by (eexists; vm_compute; reflexivity).
  destruct H as [response H].
  destruct (ok_200_content ascii_db str Z Z (fun message => message)
              (fun vec => if in_str (lit "prize") vec then lit "spam"
                          else lit "ham")
              (fun vec => if in_str (lit "prize") vec then [4; 96]%Z
                          else [91; 9]%Z)
              [lit "ham"; lit "spam"] (fun p => p) _ _ H)
    as (items & s & p & reasons & _ & Hget & _ & _ & _ & _ & Hlabel & _).
  exists response, items, s. split; [exact H|]. split; [exact Hget|].
  exact Hlabel.
Defined.

Lemma surrounding_whitespace_is_ignored_witness :
  dict_get (lit "message") [(lit "message", JStr (lit "  free entry "))]
  = Some (JStr (lit "  free entry "))
  /\ demo_route (JDict [(lit "message", JStr (lit "  free entry "))])
     = demo_route
         (JDict [(lit "message",
                  JStr (strip ascii_db (lit "  free entry ")))]).
Proof.
  assert (H : dict_get (lit "message")
                [(lit "message", JStr (lit "  free entry "))]
              = Some (JStr (lit "  free entry ")))
    by reflexivity.
  split; [exact H|].
  exact (surrounding_whitespace_is_ignored ascii_db str Z Z
           (fun message => message)
           (fun vec => if in_str (lit "prize") vec then lit "spam"
                       else lit "ham")
           (fun vec => if in_str (lit "prize") vec then [4; 96]%Z
                       else [91; 9]%Z)
           [lit "ham"; lit "spam"] (fun p => p) _ _ H).
Defined.

(** The route on some payloads, with the stand-in classifier. *)

Example route_on_null :
  demo_route JNull = Done (error_400 (lit "No message provided")).
Proof. reflexivity. Qed.

Example route_on_other_key :
  demo_route (JDict [(lit "text", JStr (lit "hello"))])
  = Done (error_400 (lit "No message provided")).
Proof. vm_compute. reflexivity. Qed.

Example route_on_blank_message :
  demo_route (JDict [(lit "message", JStr (lit "   "))])
  = Done (error_400 (lit "Message is empty")).
Proof. vm_compute. reflexivity. Qed.

Example route_on_number_message :
  demo_route (JDict [(lit "message", JNum 42)]) = Raised AttributeError.
Proof. vm_compute. reflexivity. Qed.

Example route_on_list_payload :
  demo_route (JList [JStr (lit "message")]) = Raised TypeError.
Proof. vm_compute. reflexivity. Qed.

Example route_on_ham :
  demo_route (JDict [(lit "message", JStr (lit " lunch is free today "))])
  = Done (ok_200
      {| prediction := lit "ham";
         confidence := 91%Z;
         suspicious_words := [lit "free"; lit "today"];
         explanation := [ham_note; keyword_reason (lit "free");
                         urgency_reason (lit "today")];
         scammer_intent := [] |}).
Proof. vm_compute. reflexivity. Qed.
